(** * OnStepX motion-control core: Axis step generator and Mount command layer

    A shallow embedding of [src/lib/Axis.cpp] and [src/lib/Mount.cpp].
    C [long]/[int] values are integers of [Z] with the 32-bit wrap-around of
    the target MCUs written out, C [double] values are the binary64 floats of
    the kernel, and the objects the code mutates ([Axis], [Mount], the clock,
    the output pins, the periodic task) are records passed through each
    operation. *)

From Stdlib Require Import ZArith Floats Lia Bool String Ascii List Uint63 DecimalString.
Import ListNotations.
Set Warnings "-inexact-float".
Local Open Scope Z_scope.

(** ** C arithmetic *)

(** 32-bit two's complement [long] / [int] and [unsigned long]. *)
Definition wrap_long (z : Z) : Z := (z + 2 ^ 31) mod 2 ^ 32 - 2 ^ 31.
Definition wrap_ulong (z : Z) : Z := z mod 2 ^ 32.

Definition long_range (z : Z) : Prop := - 2 ^ 31 <= z < 2 ^ 31.

Definition ladd (x y : Z) : Z := wrap_long (x + y).
Definition lsub (x y : Z) : Z := wrap_long (x - y).

Definition Z_of_sign (s : bool) (z : Z) : Z := if s then - z else z.

(** Conversion of a [double] to an integer type drops the fraction; the
    mathematical result is then reduced to the width of the target type
    (C leaves out-of-range conversions and NaN undefined). *)
Definition trunc (f : float) : Z :=
  match Prim2SF f with
  | S754_finite s m e =>
      Z_of_sign s (if 0 <=? e then Z.shiftl (Zpos m) e else Z.shiftr (Zpos m) (- e))
  | _ => 0
  end.

(** [lround]: nearest integer, halfway cases away from zero. *)
Definition round_half_away (f : float) : Z :=
  match Prim2SF f with
  | S754_finite s m e =>
      Z_of_sign s
        (if 0 <=? e then Z.shiftl (Zpos m) e
         else Z.shiftr (Zpos m) (- e) + Z.b2z (Z.testbit (Zpos m) (- e - 1)))
  | _ => 0
  end.

Definition double_to_long (f : float) : Z := wrap_long (trunc f).
Definition lround (f : float) : Z := wrap_long (round_half_away f).

(** Integer to [double]; exact for every 32-bit value. *)
Definition long_to_double (z : Z) : float :=
  if z <? 0 then PrimFloat.opp (of_uint63 (Uint63.of_Z (- z)))
  else of_uint63 (Uint63.of_Z z).

Definition fabs (f : float) : float := PrimFloat.abs f.
Definition isnan (f : float) : bool := PrimFloat.is_nan f.

(** Pin levels. *)
Definition HIGH : bool := true.
Definition LOW : bool := false.

(** ** Constants.h

    [Constants.h] is not among the sources: the constants and unit-conversion
    macros the code takes from it are parameters. *)
Class Constants : Type := {
  SIDEREAL_PERIOD : float;
  SIDEREAL_RATE_HZ : float;
  degToRad : float -> float;
  radToDeg : float -> float;
  hrsToRad : float -> float;
  radToHrs : float -> float;
  arcsecToRad : float -> float;
  radToArcsec : float -> float;
  siderealToRad : float -> float;
  hzToSidereal : float -> float;
  siderealToHz : float -> float;
  hzToSubMicros : float -> float
}.

(** ** Axis *)

Inductive MicrostepModeControl : Type :=
  | MMC_TRACKING
  | MMC_SLEWING_READY
  | MMC_SLEWING
  | MMC_TRACKING_READY.

(** The members of [class Axis] that [Axis.cpp] uses, followed by the
    hardware the axis drives: the levels of its three output pins and the
    period programmed into its periodic task.  [Axis.h] is not among the
    sources; the step counters are [long], as the accessors of [Axis.cpp]
    return them. *)
Record Axis : Type := {
  enablePinWired : bool;       (* Pins.enable != OFF *)
  invertEnabled : bool;
  invertStep : bool;
  invertDir : bool;
  spm : float;
  minSteps : Z;
  maxSteps : Z;
  trackingStep : Z;
  step : Z;
  stepGoto : Z;
  enabled : bool;
  tracking : bool;
  originSteps : Z;
  motorSteps : Z;
  indexSteps : Z;
  targetSteps : Z;
  backlashSteps : Z;
  backlashAmountSteps : Z;
  target : float;
  maxFreq : float;
  minPeriodMicros : float;
  lastPeriod : Z;
  takeStep : bool;
  dirFwd : bool;
  microstepModeControl : MicrostepModeControl;
  enablePinLevel : bool;
  stepPinLevel : bool;
  dirPinLevel : bool;
  taskPeriod : Z               (* tasks.setPeriodSubMicros(task_handle, _) *)
}.

Definition set_enabled (v : bool) (a : Axis) : Axis :=
  Build_Axis (enablePinWired a) (invertEnabled a) (invertStep a) (invertDir a) (spm a)
    (minSteps a) (maxSteps a) (trackingStep a) (step a) (stepGoto a) v (tracking a)
    (originSteps a) (motorSteps a) (indexSteps a) (targetSteps a) (backlashSteps a)
    (backlashAmountSteps a) (target a) (maxFreq a) (minPeriodMicros a) (lastPeriod a)
    (takeStep a) (dirFwd a) (microstepModeControl a) (enablePinLevel a) (stepPinLevel a)
    (dirPinLevel a) (taskPeriod a).

Definition set_tracking (v : bool) (a : Axis) : Axis :=
  Build_Axis (enablePinWired a) (invertEnabled a) (invertStep a) (invertDir a) (spm a)
    (minSteps a) (maxSteps a) (trackingStep a) (step a) (stepGoto a) (enabled a) v
    (originSteps a) (motorSteps a) (indexSteps a) (targetSteps a) (backlashSteps a)
    (backlashAmountSteps a) (target a) (maxFreq a) (minPeriodMicros a) (lastPeriod a)
    (takeStep a) (dirFwd a) (microstepModeControl a) (enablePinLevel a) (stepPinLevel a)
    (dirPinLevel a) (taskPeriod a).

Definition set_originSteps (v : Z) (a : Axis) : Axis :=
  Build_Axis (enablePinWired a) (invertEnabled a) (invertStep a) (invertDir a) (spm a)
    (minSteps a) (maxSteps a) (trackingStep a) (step a) (stepGoto a) (enabled a)
    (tracking a) v (motorSteps a) (indexSteps a) (targetSteps a) (backlashSteps a)
    (backlashAmountSteps a) (target a) (maxFreq a) (minPeriodMicros a) (lastPeriod a)
    (takeStep a) (dirFwd a) (microstepModeControl a) (enablePinLevel a) (stepPinLevel a)
    (dirPinLevel a) (taskPeriod a).

Definition set_motorSteps (v : Z) (a : Axis) : Axis :=
  Build_Axis (enablePinWired a) (invertEnabled a) (invertStep a) (invertDir a) (spm a)
    (minSteps a) (maxSteps a) (trackingStep a) (step a) (stepGoto a) (enabled a)
    (tracking a) (originSteps a) v (indexSteps a) (targetSteps a) (backlashSteps a)
    (backlashAmountSteps a) (target a) (maxFreq a) (minPeriodMicros a) (lastPeriod a)
    (takeStep a) (dirFwd a) (microstepModeControl a) (enablePinLevel a) (stepPinLevel a)
    (dirPinLevel a) (taskPeriod a).

Definition set_indexSteps (v : Z) (a : Axis) : Axis :=
  Build_Axis (enablePinWired a) (invertEnabled a) (invertStep a) (invertDir a) (spm a)
    (minSteps a) (maxSteps a) (trackingStep a) (step a) (stepGoto a) (enabled a)
    (tracking a) (originSteps a) (motorSteps a) v (targetSteps a) (backlashSteps a)
    (backlashAmountSteps a) (target a) (maxFreq a) (minPeriodMicros a) (lastPeriod a)
    (takeStep a) (dirFwd a) (microstepModeControl a) (enablePinLevel a) (stepPinLevel a)
    (dirPinLevel a) (taskPeriod a).

Definition set_targetSteps (v : Z) (a : Axis) : Axis :=
  Build_Axis (enablePinWired a) (invertEnabled a) (invertStep a) (invertDir a) (spm a)
    (minSteps a) (maxSteps a) (trackingStep a) (step a) (stepGoto a) (enabled a)
    (tracking a) (originSteps a) (motorSteps a) (indexSteps a) v (backlashSteps a)
    (backlashAmountSteps a) (target a) (maxFreq a) (minPeriodMicros a) (lastPeriod a)
    (takeStep a) (dirFwd a) (microstepModeControl a) (enablePinLevel a) (stepPinLevel a)
    (dirPinLevel a) (taskPeriod a).

Definition set_backlashSteps (v : Z) (a : Axis) : Axis :=
  Build_Axis (enablePinWired a) (invertEnabled a) (invertStep a) (invertDir a) (spm a)
    (minSteps a) (maxSteps a) (trackingStep a) (step a) (stepGoto a) (enabled a)
    (tracking a) (originSteps a) (motorSteps a) (indexSteps a) (targetSteps a) v
    (backlashAmountSteps a) (target a) (maxFreq a) (minPeriodMicros a) (lastPeriod a)
    (takeStep a) (dirFwd a) (microstepModeControl a) (enablePinLevel a) (stepPinLevel a)
    (dirPinLevel a) (taskPeriod a).

Definition set_backlashAmountSteps (v : Z) (a : Axis) : Axis :=
  Build_Axis (enablePinWired a) (invertEnabled a) (invertStep a) (invertDir a) (spm a)
    (minSteps a) (maxSteps a) (trackingStep a) (step a) (stepGoto a) (enabled a)
    (tracking a) (originSteps a) (motorSteps a) (indexSteps a) (targetSteps a)
    (backlashSteps a) v (target a) (maxFreq a) (minPeriodMicros a) (lastPeriod a)
    (takeStep a) (dirFwd a) (microstepModeControl a) (enablePinLevel a) (stepPinLevel a)
    (dirPinLevel a) (taskPeriod a).

Definition set_target (v : float) (a : Axis) : Axis :=
  Build_Axis (enablePinWired a) (invertEnabled a) (invertStep a) (invertDir a) (spm a)
    (minSteps a) (maxSteps a) (trackingStep a) (step a) (stepGoto a) (enabled a)
    (tracking a) (originSteps a) (motorSteps a) (indexSteps a) (targetSteps a)
    (backlashSteps a) (backlashAmountSteps a) v (maxFreq a) (minPeriodMicros a)
    (lastPeriod a) (takeStep a) (dirFwd a) (microstepModeControl a) (enablePinLevel a)
    (stepPinLevel a) (dirPinLevel a) (taskPeriod a).

Definition set_maxFreq (v : float) (a : Axis) : Axis :=
  Build_Axis (enablePinWired a) (invertEnabled a) (invertStep a) (invertDir a) (spm a)
    (minSteps a) (maxSteps a) (trackingStep a) (step a) (stepGoto a) (enabled a)
    (tracking a) (originSteps a) (motorSteps a) (indexSteps a) (targetSteps a)
    (backlashSteps a) (backlashAmountSteps a) (target a) v (minPeriodMicros a)
    (lastPeriod a) (takeStep a) (dirFwd a) (microstepModeControl a) (enablePinLevel a)
    (stepPinLevel a) (dirPinLevel a) (taskPeriod a).

Definition set_minPeriodMicros (v : float) (a : Axis) : Axis :=
  Build_Axis (enablePinWired a) (invertEnabled a) (invertStep a) (invertDir a) (spm a)
    (minSteps a) (maxSteps a) (trackingStep a) (step a) (stepGoto a) (enabled a)
    (tracking a) (originSteps a) (motorSteps a) (indexSteps a) (targetSteps a)
    (backlashSteps a) (backlashAmountSteps a) (target a) (maxFreq a) v (lastPeriod a)
    (takeStep a) (dirFwd a) (microstepModeControl a) (enablePinLevel a) (stepPinLevel a)
    (dirPinLevel a) (taskPeriod a).

Definition set_lastPeriod (v : Z) (a : Axis) : Axis :=
  Build_Axis (enablePinWired a) (invertEnabled a) (invertStep a) (invertDir a) (spm a)
    (minSteps a) (maxSteps a) (trackingStep a) (step a) (stepGoto a) (enabled a)
    (tracking a) (originSteps a) (motorSteps a) (indexSteps a) (targetSteps a)
    (backlashSteps a) (backlashAmountSteps a) (target a) (maxFreq a) (minPeriodMicros a) v
    (takeStep a) (dirFwd a) (microstepModeControl a) (enablePinLevel a) (stepPinLevel a)
    (dirPinLevel a) (taskPeriod a).

Definition set_takeStep (v : bool) (a : Axis) : Axis :=
  Build_Axis (enablePinWired a) (invertEnabled a) (invertStep a) (invertDir a) (spm a)
    (minSteps a) (maxSteps a) (trackingStep a) (step a) (stepGoto a) (enabled a)
    (tracking a) (originSteps a) (motorSteps a) (indexSteps a) (targetSteps a)
    (backlashSteps a) (backlashAmountSteps a) (target a) (maxFreq a) (minPeriodMicros a)
    (lastPeriod a) v (dirFwd a) (microstepModeControl a) (enablePinLevel a) (stepPinLevel a)
    (dirPinLevel a) (taskPeriod a).

Definition set_dirFwd (v : bool) (a : Axis) : Axis :=
  Build_Axis (enablePinWired a) (invertEnabled a) (invertStep a) (invertDir a) (spm a)
    (minSteps a) (maxSteps a) (trackingStep a) (step a) (stepGoto a) (enabled a)
    (tracking a) (originSteps a) (motorSteps a) (indexSteps a) (targetSteps a)
    (backlashSteps a) (backlashAmountSteps a) (target a) (maxFreq a) (minPeriodMicros a)
    (lastPeriod a) (takeStep a) v (microstepModeControl a) (enablePinLevel a)
    (stepPinLevel a) (dirPinLevel a) (taskPeriod a).

Definition set_microstepModeControl (v : MicrostepModeControl) (a : Axis) : Axis :=
  Build_Axis (enablePinWired a) (invertEnabled a) (invertStep a) (invertDir a) (spm a)
    (minSteps a) (maxSteps a) (trackingStep a) (step a) (stepGoto a) (enabled a)
    (tracking a) (originSteps a) (motorSteps a) (indexSteps a) (targetSteps a)
    (backlashSteps a) (backlashAmountSteps a) (target a) (maxFreq a) (minPeriodMicros a)
    (lastPeriod a) (takeStep a) (dirFwd a) v (enablePinLevel a) (stepPinLevel a)
    (dirPinLevel a) (taskPeriod a).

Definition set_enablePinLevel (v : bool) (a : Axis) : Axis :=
  Build_Axis (enablePinWired a) (invertEnabled a) (invertStep a) (invertDir a) (spm a)
    (minSteps a) (maxSteps a) (trackingStep a) (step a) (stepGoto a) (enabled a)
    (tracking a) (originSteps a) (motorSteps a) (indexSteps a) (targetSteps a)
    (backlashSteps a) (backlashAmountSteps a) (target a) (maxFreq a) (minPeriodMicros a)
    (lastPeriod a) (takeStep a) (dirFwd a) (microstepModeControl a) v (stepPinLevel a)
    (dirPinLevel a) (taskPeriod a).

Definition set_stepPinLevel (v : bool) (a : Axis) : Axis :=
  Build_Axis (enablePinWired a) (invertEnabled a) (invertStep a) (invertDir a) (spm a)
    (minSteps a) (maxSteps a) (trackingStep a) (step a) (stepGoto a) (enabled a)
    (tracking a) (originSteps a) (motorSteps a) (indexSteps a) (targetSteps a)
    (backlashSteps a) (backlashAmountSteps a) (target a) (maxFreq a) (minPeriodMicros a)
    (lastPeriod a) (takeStep a) (dirFwd a) (microstepModeControl a) (enablePinLevel a) v
    (dirPinLevel a) (taskPeriod a).

Definition set_dirPinLevel (v : bool) (a : Axis) : Axis :=
  Build_Axis (enablePinWired a) (invertEnabled a) (invertStep a) (invertDir a) (spm a)
    (minSteps a) (maxSteps a) (trackingStep a) (step a) (stepGoto a) (enabled a)
    (tracking a) (originSteps a) (motorSteps a) (indexSteps a) (targetSteps a)
    (backlashSteps a) (backlashAmountSteps a) (target a) (maxFreq a) (minPeriodMicros a)
    (lastPeriod a) (takeStep a) (dirFwd a) (microstepModeControl a) (enablePinLevel a)
    (stepPinLevel a) v (taskPeriod a).

Definition set_taskPeriod (v : Z) (a : Axis) : Axis :=
  Build_Axis (enablePinWired a) (invertEnabled a) (invertStep a) (invertDir a) (spm a)
    (minSteps a) (maxSteps a) (trackingStep a) (step a) (stepGoto a) (enabled a)
    (tracking a) (originSteps a) (motorSteps a) (indexSteps a) (targetSteps a)
    (backlashSteps a) (backlashAmountSteps a) (target a) (maxFreq a) (minPeriodMicros a)
    (lastPeriod a) (takeStep a) (dirFwd a) (microstepModeControl a) (enablePinLevel a)
    (stepPinLevel a) (dirPinLevel a) v.

Definition MMC_eqb (x y : MicrostepModeControl) : bool :=
  match x, y with
  | MMC_TRACKING, MMC_TRACKING | MMC_SLEWING_READY, MMC_SLEWING_READY
  | MMC_SLEWING, MMC_SLEWING | MMC_TRACKING_READY, MMC_TRACKING_READY => true
  | _, _ => false
  end.

Section AxisOps.
Context {K : Constants}.
Local Open Scope float_scope.

(** [Axis::enable] *)
Definition enable (value : bool) (a : Axis) : Axis :=
  if enablePinWired a then
    let a :=
      if value then set_enablePinLevel (if invertEnabled a then HIGH else LOW) a
      else set_enablePinLevel (if invertEnabled a then LOW else HIGH) a in
    set_enabled value a
  else a.

Definition isEnabled (a : Axis) : bool := enabled a.

Definition getStepsPerMeasure (a : Axis) : float := spm a.

Definition getStepsPerStepGoto (a : Axis) : Z := stepGoto a.

(** [Axis::setMotorCoordinateSteps] *)
Definition setMotorCoordinateSteps (value : Z) (a : Axis) : Axis :=
  let a := set_indexSteps 0%Z a in
  let a := set_motorSteps value a in
  let a := set_targetSteps value a in
  set_backlashSteps 0%Z a.

(** [Axis::setMotorCoordinate] *)
Definition setMotorCoordinate (value : float) (a : Axis) : Axis :=
  let steps := lround (value * spm a) in
  setMotorCoordinateSteps steps a.

Definition getMotorCoordinateSteps (a : Axis) : Z :=
  ladd (motorSteps a) (backlashSteps a).

Definition getInstrumentCoordinateSteps (a : Axis) : Z :=
  ladd (motorSteps a) (indexSteps a).

(** [Axis::setInstrumentCoordinate] *)
Definition setInstrumentCoordinate (value : float) (a : Axis) : Axis :=
  let steps := double_to_long (value * spm a) in
  set_indexSteps (lsub steps (motorSteps a)) a.

Definition getInstrumentCoordinate (a : Axis) : float :=
  let steps := ladd (motorSteps a) (indexSteps a) in
  long_to_double steps / spm a.

Definition markOriginCoordinate (a : Axis) : Axis :=
  set_originSteps (getInstrumentCoordinateSteps a) a.

(** [Axis::setTargetCoordinate] *)
Definition setTargetCoordinate (value : float) (a : Axis) : Axis :=
  let a := set_target (value * spm a) a in
  let steps := lround (target a) in
  set_targetSteps (lsub steps (indexSteps a)) a.

Definition getTargetCoordinate (a : Axis) : float :=
  let steps := ladd (targetSteps a) (indexSteps a) in
  long_to_double steps / spm a.

(** [Axis::moveTargetCoordinate] *)
Definition moveTargetCoordinate (value : float) (a : Axis) : Axis :=
  let a := set_target (target a + value * spm a) a in
  let steps := lround (target a) in
  set_targetSteps (lsub steps (indexSteps a)) a.

(** [Axis::nearTarget] *)
Definition nearTarget (a : Axis) : bool :=
  fabs (long_to_double (lsub (ladd (motorSteps a) (backlashSteps a)) (targetSteps a)))
    <=? long_to_double (step a) * 2.0.

(** [Axis::setFrequencyMax] *)
Definition setFrequencyMax (frequency : float) (a : Axis) : Axis :=
  let a := set_maxFreq (frequency * spm a) a in
  if negb (frequency =? 0.0) then set_minPeriodMicros (1000000.0 / maxFreq a) a
  else set_minPeriodMicros 0.0 a.

(** [Axis::setFrequency]; [clockPeriod] is [clock.getPeriodSubMicros()]. *)
Definition setFrequency (clockPeriod : Z) (frequency : float) (a : Axis) : Axis :=
  let d := 1000000.0 / (frequency * spm a) in
  let d := if d <? minPeriodMicros a then minPeriodMicros a else d in
  let d := d / 2.0 in
  if negb (isnan d) && (fabs d <=? 134000000) then
    let d := d * 16.0 in
    let a := set_lastPeriod (wrap_ulong (lround d)) a in
    let d := d * (SIDEREAL_PERIOD / long_to_double clockPeriod) in
    set_taskPeriod (wrap_ulong (lround d)) a
  else
    let d := 0 in
    let a := set_lastPeriod 0%Z a in
    set_taskPeriod (wrap_ulong (lround d)) a.

(** [Axis::getFrequencySteps] *)
Definition getFrequencySteps (a : Axis) : float :=
  if (lastPeriod a =? 0)%Z then 0
  else 16000000.0 / long_to_double (wrap_ulong (lastPeriod a * 2)).

(** [Axis::getFrequency] *)
Definition getFrequency (a : Axis) : float := getFrequencySteps a / spm a.

Definition setTracking (tracking : bool) (a : Axis) : Axis := set_tracking tracking a.

Definition getTracking (a : Axis) : bool := tracking a.

(** [Axis::setBacklash] *)
Definition setBacklash (value : float) (a : Axis) : Axis :=
  set_backlashAmountSteps (double_to_long (value * spm a)) a.

(** [Axis::getBacklash] *)
Definition getBacklash (a : Axis) : float :=
  long_to_double (backlashSteps a) / spm a.

Definition getMinCoordinate (a : Axis) : float := long_to_double (minSteps a) / spm a.

Definition getMaxCoordinate (a : Axis) : float := long_to_double (maxSteps a) / spm a.

(** [Axis::move], one invocation of the periodic task. *)
Definition move (a : Axis) : Axis :=
  let a :=
    if takeStep a then
      let a := if tracking a then set_targetSteps (ladd (targetSteps a) (trackingStep a)) a
               else a in
      if (ladd (motorSteps a) (backlashSteps a) >? targetSteps a)%Z then
        let a :=
          if (backlashSteps a >? 0)%Z
          then set_backlashSteps (lsub (backlashSteps a) (step a)) a
          else set_motorSteps (lsub (motorSteps a) (step a)) a in
        set_stepPinLevel (if invertStep a then LOW else HIGH) a
      else if (ladd (motorSteps a) (backlashSteps a) <? targetSteps a)%Z then
        let a :=
          if (backlashSteps a <? backlashAmountSteps a)%Z
          then set_backlashSteps (ladd (backlashSteps a) (step a)) a
          else set_motorSteps (ladd (motorSteps a) (step a)) a in
        set_stepPinLevel (if invertStep a then LOW else HIGH) a
      else a
    else
      let a :=
        if (ladd (motorSteps a) (backlashSteps a) >? targetSteps a)%Z then
          if negb (dirFwd a) then
            let a := set_dirFwd (negb (dirFwd a)) a in
            set_dirPinLevel (if invertDir a then LOW else HIGH) a
          else a
        else if (ladd (motorSteps a) (backlashSteps a) <? targetSteps a)%Z then
          if dirFwd a then
            let a := set_dirFwd (negb (dirFwd a)) a in
            set_dirPinLevel (if invertDir a then HIGH else LOW) a
          else a
        else a in
      let a :=
        if MMC_eqb (microstepModeControl a) MMC_SLEWING_READY
        then set_microstepModeControl MMC_SLEWING a else a in
      set_stepPinLevel (if invertStep a then HIGH else LOW) a in
  set_takeStep (negb (takeStep a)) a.

End AxisOps.

(** ** Mount *)

Inductive MountType : Type := GEM | FORK | ALTAZM.
Inductive MeridianFlip : Type := MF_NEVER | MF_ALWAYS.
Inductive TrackingState : Type := TS_NONE | TS_SIDEREAL.
Inductive GotoState : Type := GS_NONE | GS_GOTO.
Inductive ParkState : Type := PS_UNPARKED | PS_PARKING | PS_PARKED | PS_PARK_FAILED.
Inductive GuideState : Type := GU_NONE | GU_GUIDE | GU_PULSE_GUIDE.
Inductive RateCompensation : Type :=
  RC_NONE | RC_REFR_RA | RC_REFR_BOTH | RC_FULL_RA | RC_FULL_BOTH.
Inductive PierSide : Type := PIER_SIDE_NONE | PIER_SIDE_EAST | PIER_SIDE_WEST.
Inductive PrecisionMode : Type := PM_LOW | PM_HIGH | PM_HIGHEST.

(** [CommandError]: the result codes that [Mount.cpp] names, and the goto
    results in the order of the [:MS#] reply table. *)
Inductive CommandError : Type :=
  | CE_NONE
  | CE_CMD_UNKNOWN
  | CE_PARAM_RANGE
  | CE_PARAM_FORM
  | CE_PARKED
  | CE_GOTO_ERR_BELOW_HORIZON
  | CE_GOTO_ERR_ABOVE_OVERHEAD
  | CE_SLEW_ERR_IN_STANDBY
  | CE_SLEW_ERR_IN_PARK
  | CE_GOTO_ERR_GOTO
  | CE_SLEW_ERR_OUTSIDE_LIMITS
  | CE_SLEW_ERR_HARDWARE_FAULT
  | CE_MOUNT_IN_MOTION
  | CE_GOTO_ERR_UNSPECIFIED.

Definition MountType_eq_dec (x y : MountType) : {x = y} + {x <> y}.
Proof. decide equality. Defined.
Definition TrackingState_eq_dec (x y : TrackingState) : {x = y} + {x <> y}.
Proof. decide equality. Defined.
Definition GotoState_eq_dec (x y : GotoState) : {x = y} + {x <> y}.
Proof. decide equality. Defined.
Definition ParkState_eq_dec (x y : ParkState) : {x = y} + {x <> y}.
Proof. decide equality. Defined.
Definition GuideState_eq_dec (x y : GuideState) : {x = y} + {x <> y}.
Proof. decide equality. Defined.
Definition RateCompensation_eq_dec (x y : RateCompensation) : {x = y} + {x <> y}.
Proof. decide equality. Defined.
Definition CommandError_eq_dec (x y : CommandError) : {x = y} + {x <> y}.
Proof. decide equality. Defined.

(** The error kinds of the protocol layer.  [CE_MOUNT_IN_MOTION] is what
    [:Td#] answers during a goto or a guide and [CE_PARKED] what [:Te#]
    answers on a parked mount: the state conflicts. *)
Inductive ErrorKind : Type :=
  | Accepted
  | CommandUnknown
  | ParameterRange
  | ParameterForm
  | StateConflict
  | GotoClass.

Definition error_kind (e : CommandError) : ErrorKind :=
  match e with
  | CE_NONE => Accepted
  | CE_CMD_UNKNOWN => CommandUnknown
  | CE_PARAM_RANGE => ParameterRange
  | CE_PARAM_FORM => ParameterForm
  | CE_PARKED | CE_MOUNT_IN_MOTION => StateConflict
  | _ => GotoClass
  end.

Module Coord.
Record t : Type := mk {
  r : float;
  d : float;
  a : float;
  z : float;
  pierSide : PierSide
}.
Definition set_r (v : float) (c : t) : t := mk v (d c) (a c) (z c) (pierSide c).
Definition set_d (v : float) (c : t) : t := mk (r c) v (a c) (z c) (pierSide c).
Definition set_a (v : float) (c : t) : t := mk (r c) (d c) v (z c) (pierSide c).
Definition set_z (v : float) (c : t) : t := mk (r c) (d c) (a c) v (pierSide c).
End Coord.
Definition Coordinate : Type := Coord.t.

Record Limits : Type := {
  minAltitude : float;
  maxAltitude : float;
  pastMeridianE : float;
  pastMeridianW : float;
  autoMeridianFlip : bool
}.

Definition set_minAltitude (v : float) (l : Limits) : Limits :=
  Build_Limits v (maxAltitude l) (pastMeridianE l) (pastMeridianW l) (autoMeridianFlip l).

Definition set_maxAltitude (v : float) (l : Limits) : Limits :=
  Build_Limits (minAltitude l) v (pastMeridianE l) (pastMeridianW l) (autoMeridianFlip l).

(** The members of [class Mount] that the tracking and command code reads
    or writes ([Mount.h] is not among the sources). *)
Record Mount : Type := {
  mountType : MountType;
  meridianFlip : MeridianFlip;
  radsPerCentisecond : float;
  trackingState : TrackingState;
  gotoState : GotoState;
  parkState : ParkState;
  guideState : GuideState;
  rateCompensation : RateCompensation;
  trackingRate : float;
  trackingRateAxis1 : float;
  trackingRateAxis2 : float;
  guideRateAxis1 : float;
  guideRateAxis2 : float;
  deltaRateAxis1 : float;
  deltaRateAxis2 : float;
  gotoTarget : Coordinate;
  current : Coordinate;
  limits : Limits
}.

Definition set_trackingState (v : TrackingState) (m : Mount) : Mount :=
  Build_Mount (mountType m) (meridianFlip m) (radsPerCentisecond m) v (gotoState m)
    (parkState m) (guideState m) (rateCompensation m) (trackingRate m) (trackingRateAxis1 m)
    (trackingRateAxis2 m) (guideRateAxis1 m) (guideRateAxis2 m) (deltaRateAxis1 m)
    (deltaRateAxis2 m) (gotoTarget m) (current m) (limits m).

Definition set_rateCompensation (v : RateCompensation) (m : Mount) : Mount :=
  Build_Mount (mountType m) (meridianFlip m) (radsPerCentisecond m) (trackingState m)
    (gotoState m) (parkState m) (guideState m) v (trackingRate m) (trackingRateAxis1 m)
    (trackingRateAxis2 m) (guideRateAxis1 m) (guideRateAxis2 m) (deltaRateAxis1 m)
    (deltaRateAxis2 m) (gotoTarget m) (current m) (limits m).

Definition set_trackingRate (v : float) (m : Mount) : Mount :=
  Build_Mount (mountType m) (meridianFlip m) (radsPerCentisecond m) (trackingState m)
    (gotoState m) (parkState m) (guideState m) (rateCompensation m) v (trackingRateAxis1 m)
    (trackingRateAxis2 m) (guideRateAxis1 m) (guideRateAxis2 m) (deltaRateAxis1 m)
    (deltaRateAxis2 m) (gotoTarget m) (current m) (limits m).

Definition set_trackingRateAxis1 (v : float) (m : Mount) : Mount :=
  Build_Mount (mountType m) (meridianFlip m) (radsPerCentisecond m) (trackingState m)
    (gotoState m) (parkState m) (guideState m) (rateCompensation m) (trackingRate m) v
    (trackingRateAxis2 m) (guideRateAxis1 m) (guideRateAxis2 m) (deltaRateAxis1 m)
    (deltaRateAxis2 m) (gotoTarget m) (current m) (limits m).

Definition set_trackingRateAxis2 (v : float) (m : Mount) : Mount :=
  Build_Mount (mountType m) (meridianFlip m) (radsPerCentisecond m) (trackingState m)
    (gotoState m) (parkState m) (guideState m) (rateCompensation m) (trackingRate m)
    (trackingRateAxis1 m) v (guideRateAxis1 m) (guideRateAxis2 m) (deltaRateAxis1 m)
    (deltaRateAxis2 m) (gotoTarget m) (current m) (limits m).

Definition set_gotoTarget (v : Coordinate) (m : Mount) : Mount :=
  Build_Mount (mountType m) (meridianFlip m) (radsPerCentisecond m) (trackingState m)
    (gotoState m) (parkState m) (guideState m) (rateCompensation m) (trackingRate m)
    (trackingRateAxis1 m) (trackingRateAxis2 m) (guideRateAxis1 m) (guideRateAxis2 m)
    (deltaRateAxis1 m) (deltaRateAxis2 m) v (current m) (limits m).

Definition set_current (v : Coordinate) (m : Mount) : Mount :=
  Build_Mount (mountType m) (meridianFlip m) (radsPerCentisecond m) (trackingState m)
    (gotoState m) (parkState m) (guideState m) (rateCompensation m) (trackingRate m)
    (trackingRateAxis1 m) (trackingRateAxis2 m) (guideRateAxis1 m) (guideRateAxis2 m)
    (deltaRateAxis1 m) (deltaRateAxis2 m) (gotoTarget m) v (limits m).

Definition set_limits (v : Limits) (m : Mount) : Mount :=
  Build_Mount (mountType m) (meridianFlip m) (radsPerCentisecond m) (trackingState m)
    (gotoState m) (parkState m) (guideState m) (rateCompensation m) (trackingRate m)
    (trackingRateAxis1 m) (trackingRateAxis2 m) (guideRateAxis1 m) (guideRateAxis2 m)
    (deltaRateAxis1 m) (deltaRateAxis2 m) (gotoTarget m) (current m) v.

Record GeneralErrors : Type := {
  altitudeMin : bool;
  limitSense : bool;
  decMinMax : bool;
  azmMinMax : bool;
  raMinMax : bool;
  raMeridian : bool;
  sync : bool;
  altitudeMax : bool;
  park : bool
}.

(** Everything [Mount.cpp] can touch: the mount, the two global axes, the
    period of the master clock ([clock.getPeriodSubMicros()]) and the
    sticky fault flags. *)
Record World : Type := {
  mount : Mount;
  axis1 : Axis;
  axis2 : Axis;
  clock : Z;
  generalErrors : GeneralErrors
}.

Definition set_mount (v : Mount) (w : World) : World :=
  Build_World v (axis1 w) (axis2 w) (clock w) (generalErrors w).

Definition set_axis1 (v : Axis) (w : World) : World :=
  Build_World (mount w) v (axis2 w) (clock w) (generalErrors w).

Definition set_axis2 (v : Axis) (w : World) : World :=
  Build_World (mount w) (axis1 w) v (clock w) (generalErrors w).

Definition set_clock (v : Z) (w : World) : World :=
  Build_World (mount w) (axis1 w) (axis2 w) v (generalErrors w).

Definition set_generalErrors (v : GeneralErrors) (w : World) : World :=
  Build_World (mount w) (axis1 w) (axis2 w) (clock w) v.

(** The buffers and flags [Mount::command] receives by pointer. *)
Record CommandIO : Type := {
  reply : string;
  supressFrame : bool;
  numericReply : bool;
  commandError : CommandError
}.

Definition set_reply (v : string) (io : CommandIO) : CommandIO :=
  Build_CommandIO v (supressFrame io) (numericReply io) (commandError io).

Definition set_supressFrame (v : bool) (io : CommandIO) : CommandIO :=
  Build_CommandIO (reply io) v (numericReply io) (commandError io).

Definition set_numericReply (v : bool) (io : CommandIO) : CommandIO :=
  Build_CommandIO (reply io) (supressFrame io) v (commandError io).

Definition set_commandError (v : CommandError) (io : CommandIO) : CommandIO :=
  Build_CommandIO (reply io) (supressFrame io) (numericReply io) v.

(** The collaborators of [Mount.cpp] that are not among the sources: the
    parsers and formatters of [Convert] and of the C library, the coordinate
    [Transform], the mount's own [syncEqu] and [gotoEqu] with the digit they
    put into the reply ([gotoReply], from the result and the buffer), and
    the text of the status reports ([:GU#], [:Gu#], [:GX..#], [:VS#]),
    which is built from members of [Mount] that no operation below writes.
    A parser gives [None] where the C function reports failure, and then
    leaves its output argument as it was. *)
Class Collaborators : Type := {
  precision : PrecisionMode;
  atoi2 : string -> option Z;
  dmsToDouble : string -> bool -> option float;
  hmsToDouble : string -> option float;
  strtod : string -> option float;
  doubleToDms : float -> bool -> bool -> PrecisionMode -> string;
  doubleToHms : float -> bool -> PrecisionMode -> string;
  dtostrf : float -> Z -> Z -> string;
  mountToNative : Coordinate -> bool -> Coordinate;
  instrumentToMount : float -> float -> Coordinate;
  syncEqu : World -> CommandError * World;
  gotoEqu : World -> CommandError * World;
  gotoReply : bool -> CommandError -> string -> string;
  statusReply : string -> string -> World -> string
}.

(** [sprintf] with the formats ["%d"], ["%+02ld*"] and ["%02ld*"]. *)
Definition sprintf_d (n : Z) : string := NilZero.string_of_int (Z.to_int n).

Definition sprintf_plus02ld_star (n : Z) : string :=
  ((if (n <? 0)%Z then "" else "+") ++ sprintf_d n ++ "*")%string.

Definition sprintf_02ld_star (n : Z) : string :=
  ((if ((0 <=? n) && (n <? 10))%Z then "0" else "") ++ sprintf_d n ++ "*")%string.

(** Characters of a NUL-terminated buffer. *)
Definition chr (n : nat) (s : string) : ascii :=
  match String.get n s with
  | Some c => c
  | None => zero
  end.

(** The command-matching macros of [ProcessCmds.h] (not among the sources):
    [cmd] wants the two command letters and no parameter, [cmdH] allows the
    parameter ["H"], [cmdP] takes any parameter. *)
Definition cmdP (x command : string) : bool :=
  Ascii.eqb (chr 0 command) (chr 0 x) && Ascii.eqb (chr 1 command) (chr 1 x).

Definition cmd (x command parameter : string) : bool :=
  cmdP x command && Ascii.eqb (chr 0 parameter) zero.

Definition cmdH (x command parameter : string) : bool :=
  cmdP x command
  && (Ascii.eqb (chr 0 parameter) zero
      || (Ascii.eqb (chr 0 parameter) "H" && Ascii.eqb (chr 1 parameter) zero)).

Definition in_chars (c : ascii) (l : list ascii) : bool := existsb (Ascii.eqb c) l.

Section MountOps.
Context {K : Constants} {X : Collaborators}.
Local Open Scope float_scope.

(** [Mount::updatePosition] *)
Definition updatePosition (w : World) : World :=
  set_mount
    (set_current
       (instrumentToMount (getInstrumentCoordinate (axis1 w))
          (getInstrumentCoordinate (axis2 w)))
       (mount w)) w.

(** [Mount::updateTrackingRates] *)
Definition updateTrackingRates (w : World) : World :=
  let m := mount w in
  let m :=
    if MountType_eq_dec (mountType m) ALTAZM then m
    else
      let m := set_trackingRateAxis1 (trackingRate m) m in
      if RateCompensation_eq_dec (rateCompensation m) RC_REFR_BOTH then m
      else if RateCompensation_eq_dec (rateCompensation m) RC_FULL_BOTH then m
      else set_trackingRateAxis2 0 m in
  let m :=
    if TrackingState_eq_dec (trackingState m) TS_NONE
    then set_trackingRateAxis2 0 (set_trackingRateAxis1 0 m)
    else m in
  let w := set_mount m w in
  let w :=
    set_axis1
      (setFrequency (clock w)
         (siderealToRad (trackingRateAxis1 m + guideRateAxis1 m + deltaRateAxis1 m))
         (axis1 w)) w in
  set_axis2
    (setFrequency (clock w)
       (siderealToRad (trackingRateAxis2 m + guideRateAxis2 m + deltaRateAxis2 m))
       (axis2 w)) w.

(** [Mount::resetGeneralErrors] *)
Definition resetGeneralErrors (w : World) : World :=
  set_generalErrors
    (Build_GeneralErrors false false false false false false false false false) w.

Definition with_precision (parameter : string) : PrecisionMode :=
  if Ascii.eqb (chr 0 parameter) "H" then PM_HIGHEST else precision.

Definition upd_rateCompensation (v : RateCompensation) (w : World) : World :=
  set_mount (set_rateCompensation v (mount w)) w.

Definition upd_trackingRate (v : float) (w : World) : World :=
  set_mount (set_trackingRate v (mount w)) w.

Definition upd_trackingState (v : TrackingState) (w : World) : World :=
  set_mount (set_trackingState v (mount w)) w.

Definition upd_gotoTarget (f : Coordinate -> Coordinate) (w : World) : World :=
  set_mount (set_gotoTarget (f (gotoTarget (mount w))) (mount w)) w.

Definition upd_limits (f : Limits -> Limits) (w : World) : World :=
  set_mount (set_limits (f (limits (mount w))) (mount w)) w.

Definition not_altazm (w : World) : bool :=
  if MountType_eq_dec (mountType (mount w)) ALTAZM then false else true.

Definition both_enabled (w : World) : World :=
  set_axis2 (enable true (axis2 w)) (set_axis1 (enable true (axis1 w)) w).

(** The tracking commands, [command[0] == 'T'] without parameter. *)
Definition command_T (c1 : ascii) (io : CommandIO) (w : World) : CommandIO * World :=
  let key (c : ascii) := Ascii.eqb c1 c in
  let w :=
    if key "o"%char && not_altazm w then upd_rateCompensation RC_FULL_RA w
    else if key "r"%char && not_altazm w then upd_rateCompensation RC_REFR_RA w
    else if key "n"%char && not_altazm w then upd_rateCompensation RC_NONE w
    else w in
  let '(io, w) :=
    if key "1"%char && not_altazm w then
      (io,
       if RateCompensation_eq_dec (rateCompensation (mount w)) RC_REFR_BOTH
       then upd_rateCompensation RC_REFR_RA w
       else if RateCompensation_eq_dec (rateCompensation (mount w)) RC_FULL_BOTH
       then upd_rateCompensation RC_FULL_RA w
       else w)
    else if key "2"%char && not_altazm w then
      (io,
       if RateCompensation_eq_dec (rateCompensation (mount w)) RC_REFR_RA
       then upd_rateCompensation RC_REFR_BOTH w
       else if RateCompensation_eq_dec (rateCompensation (mount w)) RC_FULL_RA
       then upd_rateCompensation RC_FULL_BOTH w
       else w)
    else if key "S"%char then (io, upd_trackingRate (hzToSidereal 60) (upd_rateCompensation RC_NONE w))
    else if key "K"%char then (io, upd_trackingRate (hzToSidereal 60.136) (upd_rateCompensation RC_NONE w))
    else if key "L"%char then (io, upd_trackingRate (hzToSidereal 57.9) (upd_rateCompensation RC_NONE w))
    else if key "Q"%char then (io, upd_trackingRate (hzToSidereal SIDEREAL_RATE_HZ) w)
    else if key "+"%char then
      (io, set_clock
             (wrap_ulong (trunc (long_to_double (clock w) - hzToSubMicros 0.02))) w)
    else if key "-"%char then
      (io, set_clock
             (wrap_ulong (trunc (long_to_double (clock w) + hzToSubMicros 0.02))) w)
    else if key "R"%char then (io, set_clock (wrap_ulong (trunc SIDEREAL_PERIOD)) w)
    else if key "e"%char then
      if ParkState_eq_dec (parkState (mount w)) PS_PARKED
      then (set_commandError CE_PARKED io, w)
      else (io, both_enabled (upd_trackingState TS_SIDEREAL (resetGeneralErrors w)))
    else if key "d"%char then
      if GotoState_eq_dec (gotoState (mount w)) GS_NONE then
        if GuideState_eq_dec (guideState (mount w)) GU_NONE
        then (io, upd_trackingState TS_NONE w)
        else (set_commandError CE_MOUNT_IN_MOTION io, w)
      else (set_commandError CE_MOUNT_IN_MOTION io, w)
    else (set_commandError CE_CMD_UNKNOWN io, w) in
  if CommandError_eq_dec (commandError io) CE_NONE then
    let io :=
      if in_chars c1 ["S"; "K"; "L"; "Q"; "+"; "-"; "R"]%char
      then set_numericReply false io else io in
    let w :=
      if in_chars c1 ["o"; "r"; "n"]%char
      then upd_trackingRate (hzToSidereal SIDEREAL_RATE_HZ) w else w in
    (io, updateTrackingRates w)
  else (io, w).

(** [:Sh[sDD]#] *)
Definition command_Sh (parameter : string) (io : CommandIO) (w : World)
  : CommandIO * World :=
  match atoi2 parameter with
  | Some deg =>
      if (-30 <=? deg)%Z && (deg <=? 30)%Z
      then (io, upd_limits (set_minAltitude (degToRad (long_to_double deg))) w)
      else (set_commandError CE_PARAM_RANGE io, w)
  | None => (set_commandError CE_PARAM_FORM io, w)
  end.

(** [:So[DD]#] *)
Definition command_So (parameter : string) (io : CommandIO) (w : World)
  : CommandIO * World :=
  match atoi2 parameter with
  | Some deg =>
      if (60 <=? deg)%Z && (deg <=? 90)%Z then
        let w := upd_limits (set_maxAltitude (degToRad (long_to_double deg))) w in
        let w :=
          if negb (not_altazm w) && (87 <? maxAltitude (limits (mount w)))
          then upd_limits (set_maxAltitude 87) w else w in
        (io, w)
      else (set_commandError CE_PARAM_RANGE io, w)
  | None => (set_commandError CE_PARAM_FORM io, w)
  end.

(** [:ST[H.H]#] *)
Definition command_ST (parameter : string) (io : CommandIO) (w : World)
  : CommandIO * World :=
  match strtod parameter with
  | Some f =>
      if ((30.0 <=? f) && (f <? 90.0)) || (fabs f <? 0.1) then
        let w :=
          if fabs f <? 0.1 then upd_trackingState TS_NONE w
          else
            let w :=
              if TrackingState_eq_dec (trackingState (mount w)) TS_NONE
              then both_enabled (upd_trackingState TS_SIDEREAL w) else w in
            upd_trackingRate (hzToSidereal f) w in
        (io, updateTrackingRates w)
      else (set_commandError CE_PARAM_RANGE io, w)
  | None => (set_commandError CE_PARAM_RANGE io, w)
  end.

(** [:$BD[n]#], [:$BR[n]#] *)
Definition command_setB (parameter : string) (io : CommandIO) (w : World)
  : CommandIO * World :=
  match atoi2 (String.substring 1 (String.length parameter - 1) parameter) with
  | Some arcSecs =>
      if (0 <=? arcSecs)%Z && (arcSecs <=? 3600)%Z then
        if Ascii.eqb (chr 0 parameter) "D" then
          (io, set_axis2 (setBacklash (arcsecToRad (long_to_double arcSecs)) (axis2 w)) w)
        else if Ascii.eqb (chr 0 parameter) "R" then
          (io, set_axis1 (setBacklash (arcsecToRad (long_to_double arcSecs)) (axis1 w)) w)
        else (set_commandError CE_CMD_UNKNOWN io, w)
      else (set_commandError CE_PARAM_RANGE io, w)
  | None => (set_commandError CE_PARAM_FORM io, w)
  end.

(** The reply of [:%BD#] and of [:%BR#]: the backlash in arc-seconds,
    kept within [0, 3600]. *)
Definition backlash_reply (ax : Axis) : string :=
  let arcSec := double_to_long (radToArcsec (getBacklash ax)) in
  let arcSec := if (arcSec <? 0)%Z then 0%Z else arcSec in
  let arcSec := if (arcSec >? 3600)%Z then 3600%Z else arcSec in
  sprintf_d arcSec.

(** [:%BD#], [:%BR#] *)
Definition command_getB (parameter : string) (io : CommandIO) (w : World)
  : CommandIO * World :=
  if Ascii.eqb (chr 0 parameter) "D" && Ascii.eqb (chr 1 parameter) zero then
    (set_numericReply false (set_reply (backlash_reply (axis2 w)) io), w)
  else if Ascii.eqb (chr 0 parameter) "R" && Ascii.eqb (chr 1 parameter) zero then
    (set_numericReply false (set_reply (backlash_reply (axis2 w)) io), w)
  else (set_commandError CE_CMD_UNKNOWN io, w).

(** A target-coordinate setter ([:Sa], [:Sd], [:Sr], [:Sz]): the parsed
    value is stored when the parser accepts, the stored value is then
    converted to radians in either case. *)
Definition command_target (parsed : option float)
    (get : Coordinate -> float) (set : float -> Coordinate -> Coordinate)
    (toRad : float -> float) (io : CommandIO) (w : World) : CommandIO * World :=
  let '(io, w) :=
    match parsed with
    | Some v => (io, upd_gotoTarget (set v) w)
    | None => (set_commandError CE_PARAM_RANGE io, w)
    end in
  (io, upd_gotoTarget (fun c => set (toRad (get c)) c) w).

(** A text reply: the text goes to [reply] and [*numericReply] is cleared. *)
Definition report (text : string) (io : CommandIO) : CommandIO :=
  set_numericReply false (set_reply text io).

(** [Mount::command].  The result is [None] where the C++ function
    returns [false] (the command is not one of the mount's). *)
Definition command (command parameter : string) (io : CommandIO) (w : World)
  : option (CommandIO * World) :=
  let c1 := chr 1 command in
  let p1 := chr 1 parameter in
  let pm := with_precision parameter in
  if cmd "CS" command parameter || cmd "CM" command parameter then
    let '(e, w) := syncEqu w in
    let io :=
      if Ascii.eqb c1 "M" then set_reply (gotoReply true e (reply io)) io else io in
    Some (set_numericReply false io, w)
  else if cmd "MS" command parameter then
    let '(e, w) := gotoEqu w in
    let io := set_reply (gotoReply false e (reply io)) io in
    Some (set_commandError e (set_supressFrame true (set_numericReply false io)), w)
  else if cmdH "GA" command parameter then
    let w := updatePosition w in
    Some (report (doubleToDms (radToDeg (Coord.a (mountToNative (current (mount w)) true)))
                    false true pm) io, w)
  else if cmdH "Ga" command parameter then
    Some (report (doubleToHms (radToDeg (Coord.a (gotoTarget (mount w)))) false pm) io, w)
  else if cmdH "GD" command parameter then
    let w := updatePosition w in
    Some (report (doubleToDms (radToDeg (Coord.d (mountToNative (current (mount w)) false)))
                    false true pm) io, w)
  else if cmdH "Gd" command parameter then
    Some (report (doubleToDms (radToDeg (Coord.d (gotoTarget (mount w)))) false true pm)
            io, w)
  else if cmd "Gh" command parameter then
    Some (report (sprintf_plus02ld_star
                    (lround (radToDeg (minAltitude (limits (mount w)))))) io, w)
  else if cmd "Go" command parameter then
    Some (report (sprintf_02ld_star
                    (lround (radToDeg (maxAltitude (limits (mount w)))))) io, w)
  else if cmdH "GR" command parameter then
    let w := updatePosition w in
    Some (report (doubleToHms (radToHrs (Coord.r (mountToNative (current (mount w)) false)))
                    false pm) io, w)
  else if cmdH "Gr" command parameter then
    Some (report (doubleToHms (radToHrs (Coord.r (gotoTarget (mount w)))) false pm) io, w)
  else if cmd "GT" command parameter then
    Some (report (if TrackingState_eq_dec (trackingState (mount w)) TS_NONE then "0"%string
                  else dtostrf (siderealToHz (trackingRate (mount w))) 0 5) io, w)
  else if cmd "GU" command parameter then
    Some (report (statusReply command parameter w) io, w)
  else if cmd "Gu" command parameter then
    let w := updatePosition w in
    Some (report (statusReply command parameter w) io, w)
  else if cmdP "GX" command && Ascii.eqb (chr 0 parameter) "9" then
    let io := set_numericReply false io in
    if in_chars p1 ["4"; "5"; "6"; "7"; "8"]%char
    then Some (set_reply (statusReply command parameter w) io, w)
    else Some (set_commandError CE_CMD_UNKNOWN (set_numericReply true io), w)
  else if cmdP "GX" command && Ascii.eqb (chr 0 parameter) "E" then
    let io := set_numericReply false io in
    if in_chars p1 ["4"; "5"; "9"; "A"; "e"; "w"; "B"; "C"; "D"]%char
    then Some (set_reply (statusReply command parameter w) io, w)
    else if in_chars p1 ["E"; "F"]%char
    then Some (set_supressFrame true (set_reply (statusReply command parameter w) io), w)
    else Some (set_commandError CE_CMD_UNKNOWN (set_numericReply true io), w)
  else if cmdH "GZ" command parameter then
    let w := updatePosition w in
    Some (report (doubleToDms (radToDeg (Coord.z (mountToNative (current (mount w)) true)))
                    true false pm) io, w)
  else if cmdH "Gz" command parameter then
    Some (report (doubleToDms (radToDeg (Coord.z (gotoTarget (mount w)))) false true pm)
            io, w)
  else if cmdP "Sa" command then
    Some (command_target (dmsToDouble parameter true) Coord.a Coord.set_a degToRad io w)
  else if cmdP "Sd" command then
    Some (command_target (dmsToDouble parameter true) Coord.d Coord.set_d degToRad io w)
  else if cmdP "Sh" command then Some (command_Sh parameter io w)
  else if Ascii.eqb c1 "o" then Some (command_So parameter io w)
  else if cmdP "Sr" command then
    Some (command_target (hmsToDouble parameter) Coord.r Coord.set_r hrsToRad io w)
  else if cmdP "ST" command then Some (command_ST parameter io w)
  else if cmdP "Sz" command then
    Some (command_target (dmsToDouble parameter false) Coord.z Coord.set_z degToRad io w)
  else if Ascii.eqb (chr 0 command) "T" && Ascii.eqb (chr 0 parameter) zero then
    Some (command_T c1 io w)
  else if cmd "VS" command parameter then
    Some (report (statusReply command parameter w) io, w)
  else if cmdP "$B" command then Some (command_setB parameter io w)
  else if cmdP "%B" command then Some (command_getB parameter io w)
  else None.

End MountOps.

(** ** Initialisation

    [Axis::init] and [Mount::init].  The settings of an axis are the
    members of [AxisSettings] the code reads. *)

Module AxisSettings.
Record t : Type := mk {
  stepsPerMeasure : float;
  reverse : bool;
  min : float;
  max : float
}.
End AxisSettings.

Definition set_spm (v : float) (a : Axis) : Axis :=
  Build_Axis (enablePinWired a) (invertEnabled a) (invertStep a) (invertDir a) v
    (minSteps a) (maxSteps a) (trackingStep a) (step a) (stepGoto a) (enabled a)
    (tracking a) (originSteps a) (motorSteps a) (indexSteps a) (targetSteps a)
    (backlashSteps a) (backlashAmountSteps a) (target a) (maxFreq a) (minPeriodMicros a)
    (lastPeriod a) (takeStep a) (dirFwd a) (microstepModeControl a) (enablePinLevel a)
    (stepPinLevel a) (dirPinLevel a) (taskPeriod a).

Definition set_invertDir (v : bool) (a : Axis) : Axis :=
  Build_Axis (enablePinWired a) (invertEnabled a) (invertStep a) v (spm a) (minSteps a)
    (maxSteps a) (trackingStep a) (step a) (stepGoto a) (enabled a) (tracking a)
    (originSteps a) (motorSteps a) (indexSteps a) (targetSteps a) (backlashSteps a)
    (backlashAmountSteps a) (target a) (maxFreq a) (minPeriodMicros a) (lastPeriod a)
    (takeStep a) (dirFwd a) (microstepModeControl a) (enablePinLevel a) (stepPinLevel a)
    (dirPinLevel a) (taskPeriod a).

Definition set_minSteps (v : Z) (a : Axis) : Axis :=
  Build_Axis (enablePinWired a) (invertEnabled a) (invertStep a) (invertDir a) (spm a) v
    (maxSteps a) (trackingStep a) (step a) (stepGoto a) (enabled a) (tracking a)
    (originSteps a) (motorSteps a) (indexSteps a) (targetSteps a) (backlashSteps a)
    (backlashAmountSteps a) (target a) (maxFreq a) (minPeriodMicros a) (lastPeriod a)
    (takeStep a) (dirFwd a) (microstepModeControl a) (enablePinLevel a) (stepPinLevel a)
    (dirPinLevel a) (taskPeriod a).

Definition set_maxSteps (v : Z) (a : Axis) : Axis :=
  Build_Axis (enablePinWired a) (invertEnabled a) (invertStep a) (invertDir a) (spm a)
    (minSteps a) v (trackingStep a) (step a) (stepGoto a) (enabled a) (tracking a)
    (originSteps a) (motorSteps a) (indexSteps a) (targetSteps a) (backlashSteps a)
    (backlashAmountSteps a) (target a) (maxFreq a) (minPeriodMicros a) (lastPeriod a)
    (takeStep a) (dirFwd a) (microstepModeControl a) (enablePinLevel a) (stepPinLevel a)
    (dirPinLevel a) (taskPeriod a).

Definition set_mountType (v : MountType) (m : Mount) : Mount :=
  Build_Mount v (meridianFlip m) (radsPerCentisecond m) (trackingState m) (gotoState m)
    (parkState m) (guideState m) (rateCompensation m) (trackingRate m) (trackingRateAxis1 m)
    (trackingRateAxis2 m) (guideRateAxis1 m) (guideRateAxis2 m) (deltaRateAxis1 m)
    (deltaRateAxis2 m) (gotoTarget m) (current m) (limits m).

Definition set_meridianFlip (v : MeridianFlip) (m : Mount) : Mount :=
  Build_Mount (mountType m) v (radsPerCentisecond m) (trackingState m) (gotoState m)
    (parkState m) (guideState m) (rateCompensation m) (trackingRate m) (trackingRateAxis1 m)
    (trackingRateAxis2 m) (guideRateAxis1 m) (guideRateAxis2 m) (deltaRateAxis1 m)
    (deltaRateAxis2 m) (gotoTarget m) (current m) (limits m).

Definition set_radsPerCentisecond (v : float) (m : Mount) : Mount :=
  Build_Mount (mountType m) (meridianFlip m) v (trackingState m) (gotoState m) (parkState m)
    (guideState m) (rateCompensation m) (trackingRate m) (trackingRateAxis1 m)
    (trackingRateAxis2 m) (guideRateAxis1 m) (guideRateAxis2 m) (deltaRateAxis1 m)
    (deltaRateAxis2 m) (gotoTarget m) (current m) (limits m).

(** [Axis::init].  [pinModeInitEx] makes a pin an output at the level
    given; [tasks.add(0, ...)] gives the axis a task with the period 0.
    The registration of the task with a hardware timer and the set-up of
    the stepper driver are outside the axis. *)
Definition Axis_init (axisSettings : AxisSettings.t) (a : Axis) : Axis :=
  let a := set_spm (AxisSettings.stepsPerMeasure axisSettings) a in
  let a := if AxisSettings.reverse axisSettings
           then set_invertDir (negb (invertDir a)) a else a in
  let a := set_minSteps (double_to_long (AxisSettings.min axisSettings * spm a)%float) a in
  let a := set_maxSteps (double_to_long (AxisSettings.max axisSettings * spm a)%float) a in
  let a := set_stepPinLevel (if negb (invertStep a) then LOW else HIGH) a in
  let a := set_dirPinLevel (if negb (invertDir a) then LOW else HIGH) a in
  let a := enable false a in
  set_taskPeriod 0 a.

Section MountInit.
Context {K : Constants}.
Local Open Scope float_scope.

(** [Mount::init]; [axis1Settings] and [axis2Settings] are the globals of
    that name. *)
Definition Mount_init (mountType : MountType)
    (axis1Settings axis2Settings : AxisSettings.t) (w : World) : World :=
  let w := set_mount (set_mountType mountType (mount w)) w in
  let w :=
    if MountType_eq_dec mountType GEM
    then set_mount (set_meridianFlip MF_ALWAYS (mount w)) w else w in
  let w :=
    set_mount (set_radsPerCentisecond (degToRad (15.0 / 3600.0) / 100.0) (mount w)) w in
  let w := set_axis1 (Axis_init axis1Settings (axis1 w)) w in
  let w := set_axis1 (setInstrumentCoordinate (degToRad 90.0) (axis1 w)) w in
  let w := set_axis1 (enable true (axis1 w)) w in
  let w := set_axis2 (Axis_init axis2Settings (axis2 w)) w in
  let w := set_axis2 (setInstrumentCoordinate (degToRad 90.0) (axis2 w)) w in
  let w := set_axis2 (enable true (axis2 w)) w in
  let w := set_mount (set_trackingState TS_SIDEREAL (mount w)) w in
  let w := set_axis1 (setFrequencyMax (degToRad 4.0) (axis1 w)) w in
  let w := set_axis1 (setTracking true (axis1 w)) w in
  let w := set_mount (set_trackingRate (hzToSidereal SIDEREAL_RATE_HZ) (mount w)) w in
  updateTrackingRates w.

End MountInit.

(** ** HAL_STM32F446.h *)

(** [delayNanoseconds]: the number of passes of its loop. *)
Definition delay_passes (nanosPerPass n : Z) : Z := n / nanosPerPass.

(** [HAL_Initialize]: the value it gives [_nanosPerPass], from the two
    readings of [micros()] around the timed delay.  The readings are
    [uint32_t], their difference is taken as an [int32_t]; [Z.quot] is the
    division of C. *)
Definition HAL_Initialize (startTime endTime : Z) : Z :=
  let elapsed := wrap_long (wrap_ulong (endTime - startTime)) in
  let npp := wrap_ulong (Z.quot (wrap_long (elapsed * 1000)) 63335) in
  let npp := if npp <? 1 then 1 else npp in
  let npp := if npp >? 2000 then 2000 else npp in
  npp.

(** ** A configuration for the worked examples

    The usual values of the constants; whole-number parsers and formatters,
    an identity transform and a sync and goto that accept and change
    nothing stand in for the collaborators. *)
Definition onstep_constants : Constants := {|
  SIDEREAL_PERIOD := 15956313.06126534;
  SIDEREAL_RATE_HZ := 60.16427456104770;
  degToRad := fun x => (x / 57.29577951308232)%float;
  radToDeg := fun x => (x * 57.29577951308232)%float;
  hrsToRad := fun x => (x / 3.819718634205488)%float;
  radToHrs := fun x => (x * 3.819718634205488)%float;
  arcsecToRad := fun x => (x / 206264.8062470963)%float;
  radToArcsec := fun x => (x * 206264.8062470963)%float;
  siderealToRad := fun x => (x / 13750.98708313975)%float;
  hzToSidereal := fun x => (x / 60.16427456104770)%float;
  siderealToHz := fun x => (x * 60.16427456104770)%float;
  hzToSubMicros := fun x => (x * 266666.666666667)%float
|}.

(** An optional sign followed by decimal digits, within [int16_t]. *)
Definition read_int16 (s : string) : option Z :=
  let digits (t : string) :=
    match NilZero.uint_of_string t with
    | Some u => match t with EmptyString => None | _ => Some (Z.of_uint u) end
    | None => None
    end in
  let v :=
    match s with
    | String "-" t => option_map Z.opp (digits t)
    | String "+" t => digits t
    | _ => digits s
    end in
  match v with
  | Some n => if (-32768 <=? n) && (n <=? 32767) then Some n else None
  | None => None
  end.

Definition demo_collaborators : Collaborators := {|
  precision := PM_HIGH;
  atoi2 := read_int16;
  dmsToDouble := fun s _ => option_map long_to_double (read_int16 s);
  hmsToDouble := fun s => option_map long_to_double (read_int16 s);
  strtod := fun s => option_map long_to_double (read_int16 s);
  doubleToDms := fun v _ _ _ => sprintf_d (lround v);
  doubleToHms := fun v _ _ => sprintf_d (lround v);
  dtostrf := fun v _ _ => sprintf_d (lround v);
  mountToNative := fun c _ => c;
  instrumentToMount := fun a1 a2 => Coord.mk a1 a2 a2 a1 PIER_SIDE_NONE;
  syncEqu := fun w => (CE_NONE, w);
  gotoEqu := fun w => (CE_NONE, w);
  gotoReply := fun _ _ s => s;
  statusReply := fun _ _ _ => EmptyString
|}.

(** An axis of 1000 steps per measure at rest at 0, the generator stepping
    by 1, with [amount] steps of backlash configured and none taken up. *)
Definition demo_axis (amount : Z) : Axis := {|
  enablePinWired := true;
  invertEnabled := false;
  invertStep := false;
  invertDir := false;
  spm := 1000;
  minSteps := -1000000;
  maxSteps := 1000000;
  trackingStep := 1;
  step := 1;
  stepGoto := 1;
  enabled := false;
  tracking := false;
  originSteps := 0;
  motorSteps := 0;
  indexSteps := 0;
  targetSteps := 0;
  backlashSteps := 0;
  backlashAmountSteps := amount;
  target := 0;
  maxFreq := 0;
  minPeriodMicros := 0;
  lastPeriod := 0;
  takeStep := false;
  dirFwd := true;
  microstepModeControl := MMC_TRACKING;
  enablePinLevel := HIGH;
  stepPinLevel := LOW;
  dirPinLevel := LOW;
  taskPeriod := 0
|}.

Definition demo_coordinate : Coordinate := Coord.mk 0 0 0 0 PIER_SIDE_NONE.

(** A mount of the given type and tracking state, at the sidereal rate 1
    and without rate compensation. *)
Definition demo_mount (type : MountType) (ts : TrackingState) : Mount := {|
  mountType := type;
  meridianFlip := MF_NEVER;
  radsPerCentisecond := 0;
  trackingState := ts;
  gotoState := GS_NONE;
  parkState := PS_UNPARKED;
  guideState := GU_NONE;
  rateCompensation := RC_NONE;
  trackingRate := 1;
  trackingRateAxis1 := 1;
  trackingRateAxis2 := 0;
  guideRateAxis1 := 0;
  guideRateAxis2 := 0;
  deltaRateAxis1 := 0;
  deltaRateAxis2 := 0;
  gotoTarget := demo_coordinate;
  current := demo_coordinate;
  limits := Build_Limits 0 1.5 0 0 false
|}.

Definition demo_world (type : MountType) (ts : TrackingState) : World := {|
  mount := demo_mount type ts;
  axis1 := demo_axis 50;
  axis2 := demo_axis 50;
  clock := 15956313;
  generalErrors := Build_GeneralErrors false false false false false false false false false
|}.

(** The same mount, parked with tracking off. *)
Definition parked_world : World :=
  set_mount
    {| mountType := GEM;
       meridianFlip := MF_NEVER;
       radsPerCentisecond := 0;
       trackingState := TS_NONE;
       gotoState := GS_NONE;
       parkState := PS_PARKED;
       guideState := GU_NONE;
       rateCompensation := RC_NONE;
       trackingRate := 1;
       trackingRateAxis1 := 0;
       trackingRateAxis2 := 0;
       guideRateAxis1 := 0;
       guideRateAxis2 := 0;
       deltaRateAxis1 := 0;
       deltaRateAxis2 := 0;
       gotoTarget := demo_coordinate;
       current := demo_coordinate;
       limits := Build_Limits 0 1.5 0 0 false |}
    (demo_world GEM TS_NONE).

(** The buffers as the command processor hands them over. *)
Definition fresh_io : CommandIO := {|
  reply := EmptyString;
  supressFrame := false;
  numericReply := true;
  commandError := CE_NONE
|}.

(** * Vocabulary of the properties *)

(** What can happen to an axis between two reads of its state: a tick of
    the generator, or one of the target and tracking mutators of the
    command context. *)
Inductive AxisEvent : Type :=
  | Tick
  | SetTargetCoordinate (value : float)
  | MoveTargetCoordinate (value : float)
  | SetTracking (tracking : bool).

Definition axis_event (e : AxisEvent) (a : Axis) : Axis :=
  match e with
  | Tick => move a
  | SetTargetCoordinate v => setTargetCoordinate v a
  | MoveTargetCoordinate v => moveTargetCoordinate v a
  | SetTracking b => setTracking b a
  end.

(** The states an axis goes through, one per event. *)
Fixpoint trace (es : list AxisEvent) (a : Axis) : list Axis :=
  match es with
  | [] => []
  | e :: es => axis_event e a :: trace es (axis_event e a)
  end.

(** Modelled from the spec: [Axis.h], which initialises [step], is not among
    the sources, and nothing in [Axis.cpp] assigns it; the data model gives
    it as the fixed magnitude 1 advanced per generator tick. *)
Definition unit_step (a : Axis) : Prop := step a = 1.

Definition backlash_bound (a : Axis) : Prop :=
  0 <= backlashSteps a <= backlashAmountSteps a.

(** [ticks n a]: [n] invocations of [Axis::move] with nothing in between. *)
Fixpoint ticks (n : nat) (a : Axis) : Axis :=
  match n with
  | O => a
  | S n => ticks n (move a)
  end.

(** The distance left to the target, in steps. *)
Definition target_error (a : Axis) : Z :=
  Z.abs (motorSteps a + backlashSteps a - targetSteps a).

(** The level of the step pin between pulses. *)
Definition step_idle (a : Axis) : bool := if invertStep a then HIGH else LOW.

(** Tracking is off, the generator advances by unit steps, the backlash
    bound holds and the positions are representable. *)
Definition steady (a : Axis) : Prop :=
  unit_step a
  /\ tracking a = false
  /\ backlash_bound a
  /\ long_range (backlashAmountSteps a)
  /\ long_range (motorSteps a)
  /\ long_range (targetSteps a)
  /\ long_range (motorSteps a + backlashSteps a).

(** The motor has not moved past [m0] without first banking the whole
    backlash. *)
Definition climbing (m0 : Z) (a : Axis) : Prop :=
  steady a
  /\ motorSteps a + backlashSteps a <= targetSteps a
  /\ m0 <= motorSteps a
  /\ (motorSteps a = m0 \/ backlashSteps a = backlashAmountSteps a).

(** Scenario A: the axis before the target is set, with any part of the
    backlash taken up. *)
Definition scenario_A (a : Axis) : Prop :=
  spm a = 1000%float
  /\ backlashAmountSteps a = 50
  /\ motorSteps a = 0
  /\ 0 <= backlashSteps a <= 50
  /\ targetSteps a = 0
  /\ indexSteps a = 0
  /\ unit_step a
  /\ tracking a = false.

(** The half-period of [setFrequency] in microseconds: [1e6 / (frequency *
    spm)], not below [minPeriodMicros], halved. *)
Definition half_period (frequency : float) (a : Axis) : float :=
  let d := (1000000.0 / (frequency * spm a))%float in
  let d := if (d <? minPeriodMicros a)%float then minPeriodMicros a else d in
  (d / 2.0)%float.

Definition is_finite (d : float) : bool := negb (is_nan d) && negb (is_infinity d).

(** Not a finite number, or of a magnitude above 134,000,000. *)
Definition out_of_range (d : float) : bool :=
  negb (is_finite d) || (134000000 <? fabs d)%float.

(** The compensation modes that drive both axes. *)
Definition dual_axis (rc : RateCompensation) : bool :=
  match rc with
  | RC_REFR_BOTH | RC_FULL_BOTH => true
  | _ => false
  end.

(** An arc-second count kept within [0, 3600]. *)
Definition clamp_arcsec (n : Z) : Z := Z.min 3600 (Z.max 0 n).

Section UnitsVocabulary.
Context {K : Constants}.

(** Degrees written by [:Sh#] and read back by [:Gh#] come back as they
    were: a property of [degToRad] and [radToDeg]. *)
Definition degrees_round_trip : Prop :=
  forall deg, -30 <= deg <= 30 ->
    lround (radToDeg (degToRad (long_to_double deg))) = deg.

End UnitsVocabulary.

(** ** Further vocabulary *)

(** The mechanical position the generator compares with the target. *)
Definition position (a : Axis) : Z := motorSteps a + backlashSteps a.

(** Where a motor that started at [m0] rests for the target [t] with a
    backlash of [amount] steps: the play operator. *)
Definition rest_motor (m0 amount t : Z) : Z := Z.max (Z.min m0 t) (t - amount).

(** The motor has not moved below [m0] without first releasing the whole
    backlash. *)
Definition descending (m0 : Z) (a : Axis) : Prop :=
  steady a
  /\ targetSteps a <= motorSteps a + backlashSteps a
  /\ motorSteps a <= m0
  /\ (motorSteps a = m0 \/ backlashSteps a = 0).

(** The level [Axis::move] writes to the direction pin when it sets
    [dirFwd] to its present value. *)
Definition dir_level (a : Axis) : bool :=
  if dirFwd a then (if invertDir a then LOW else HIGH)
  else (if invertDir a then HIGH else LOW).

(** The axis tracks, by at most one unit step per stepping phase, sits on
    its target, and the next [room] invocations cannot leave the range of
    a [long]. *)
Definition locked (room : Z) (a : Axis) : Prop :=
  unit_step a
  /\ tracking a = true
  /\ -1 <= trackingStep a <= 1
  /\ backlash_bound a
  /\ long_range (backlashAmountSteps a)
  /\ motorSteps a + backlashSteps a = targetSteps a
  /\ long_range (targetSteps a - room - backlashAmountSteps a)
  /\ long_range (targetSteps a + room).

(** The stepping phases among the next [n] invocations. *)
Definition stepping_phases (a : Axis) (n : nat) : Z :=
  Z.of_nat ((n + (if takeStep a then 1 else 0)) / 2).

(** The axis after [setMotorCoordinateSteps(value)], tracking off. *)
Definition at_rest (value : Z) (a : Axis) : Prop :=
  tracking a = false
  /\ motorSteps a = value
  /\ backlashSteps a = 0
  /\ targetSteps a = value
  /\ indexSteps a = 0
  /\ long_range value.

(** The flags of [generalErrors], all clear. *)
Definition no_errors : GeneralErrors :=
  Build_GeneralErrors false false false false false false false false false.

(** The commands that can report an error after they have written to the
    state: the sync and goto commands, which hand the work to the goto
    code, the target setters, and [:Tr#], [:Tn#]. *)
Definition writes_before_rejecting (command parameter : string) : bool :=
  cmd "CS" command parameter || cmd "CM" command parameter
  || cmd "MS" command parameter
  || cmdP "Sa" command || cmdP "Sd" command || cmdP "Sr" command || cmdP "Sz" command
  || (Ascii.eqb (chr 0 command) "T" && in_chars (chr 1 command) ["r"; "n"]%char).

(** The calibration of [HAL_Initialize] when the product does not leave
    the range of [int32_t]. *)
Definition calibrated (elapsed : Z) : Z :=
  Z.max 1 (Z.min 2000 (elapsed * 1000 / 63335)).

(** * Properties *)

(** ** Machine arithmetic *)

Lemma wrap_long_id (z : Z) : long_range z -> wrap_long z = z.
Proof.
  unfold long_range, wrap_long. intros Hz.
  rewrite Z.mod_small; lia.
Qed.

Lemma wrap_long_range (z : Z) : long_range (wrap_long z).
Proof.
  unfold long_range, wrap_long.
  pose proof (Z.mod_pos_bound (z + 2 ^ 31) (2 ^ 32)). lia.
Qed.

Example lround_halfway :
  map lround [2.5; -2.5; 0.49999999999999994; -0.5; 1e-300; 2144000000]%float
  = [3; -3; 0; -1; 0; 2144000000].
Proof. vm_compute. reflexivity. Qed.

Example double_to_long_truncates :
  map double_to_long [2.9; -2.9; 0.9; -0.9; 17.45]%float = [2; -2; 0; 0; 17].
Proof. vm_compute. reflexivity. Qed.

Example long_to_double_exact :
  map long_to_double [0; -5; 2147483647; -2147483648]
  = [0; -5; 2147483647; -2147483648]%float.
Proof. vm_compute. reflexivity. Qed.

(** ** The step generator *)

Ltac break_if :=
  match goal with
  | |- context [if ?c then _ else _] =>
      lazymatch c with
      | context [if _ then _ else _] => fail
      | _ => destruct c eqn:?
      end
  end.

Ltac axis_cases a := destruct a; unfold move; cbn in *; repeat (break_if; cbn in * ).

Lemma move_step (a : Axis) : step (move a) = step a.
Proof. axis_cases a; reflexivity. Qed.

Lemma move_backlashAmountSteps (a : Axis) :
  backlashAmountSteps (move a) = backlashAmountSteps a.
Proof. axis_cases a; reflexivity. Qed.

Lemma move_takeStep (a : Axis) : takeStep (move a) = negb (takeStep a).
Proof. axis_cases a; reflexivity. Qed.

Lemma move_tracking (a : Axis) : tracking (move a) = tracking a.
Proof. axis_cases a; reflexivity. Qed.

Lemma move_invertStep (a : Axis) : invertStep (move a) = invertStep a.
Proof. axis_cases a; reflexivity. Qed.

Lemma move_backlash_bound (a : Axis) :
  unit_step a -> long_range (backlashAmountSteps a) ->
  backlash_bound a -> backlash_bound (move a).
Proof.
  unfold unit_step, backlash_bound, long_range.
  axis_cases a; intros; subst; unfold ladd, lsub;
    try rewrite wrap_long_id by (unfold long_range; lia); lia.
Qed.

Lemma axis_event_backlash (e : AxisEvent) (a : Axis) :
  unit_step a -> long_range (backlashAmountSteps a) -> backlash_bound a ->
  unit_step (axis_event e a)
  /\ long_range (backlashAmountSteps (axis_event e a))
  /\ backlash_bound (axis_event e a).
Proof.
  unfold unit_step at 2. intros Hs Hr Hb. destruct e; cbn [axis_event].
  - rewrite move_step, move_backlashAmountSteps.
    auto using move_backlash_bound.
  - destruct a; cbn in *; auto.
  - destruct a; cbn in *; auto.
  - destruct a; cbn in *; auto.
Qed.

(** C1. From any axis state within the backlash bound
    [0 <= backlashSteps <= backlashAmountSteps] (with the unit [step] of the
    generator), every state reached through any sequence of generator ticks
    and target or tracking changes is within the bound again: the bound
    holds after every invocation of [Axis::move]. *)
Theorem backlash_bound_invariant (es : list AxisEvent) (a : Axis) :
  unit_step a ->
  long_range (backlashAmountSteps a) ->
  backlash_bound a ->
  Forall backlash_bound (trace es a).
Proof.
  revert a. induction es as [|e es IH]; intros a Hs Hr Hb; cbn [trace].
  - constructor.
  - destruct (axis_event_backlash e a Hs Hr Hb) as (Hs' & Hr' & Hb').
    constructor; [exact Hb' | apply IH; assumption].
Qed.

(** *** Convergence on a fixed target *)

Ltac steady_cases a :=
  unfold steady, unit_step, backlash_bound, target_error, long_range in *;
  destruct a; cbn in *;
  repeat match goal with H : _ /\ _ |- _ => destruct H end; subst;
  unfold move; cbn; repeat (break_if; cbn in * ); intros; unfold ladd, lsub in *;
  repeat match goal with
         | H : context [wrap_long ?z] |- _ =>
             rewrite (wrap_long_id z) in H by (unfold long_range; lia)
         end;
  repeat rewrite wrap_long_id by (unfold long_range; lia).

Lemma move_targetSteps (a : Axis) :
  tracking a = false -> targetSteps (move a) = targetSteps a.
Proof. axis_cases a; intros; subst; try reflexivity; discriminate. Qed.

Lemma move_steady (a : Axis) : steady a -> steady (move a).
Proof.
  intros H. steady_cases a; try discriminate; intuition (try lia; try discriminate).
Qed.

Lemma move_target_error (a : Axis) :
  steady a ->
  target_error (move a) =
    if takeStep a then Z.max 0 (target_error a - 1) else target_error a.
Proof.
  intros H. steady_cases a; try discriminate; try lia.
Qed.

Lemma move_stepPin_at_target (a : Axis) :
  steady a -> target_error a = 0 ->
  stepPinLevel (move a) = if takeStep a then stepPinLevel a else step_idle a.
Proof.
  intros H. unfold step_idle. steady_cases a; try discriminate; try reflexivity; lia.
Qed.

Lemma move_position_at_target (a : Axis) :
  steady a -> target_error a = 0 ->
  motorSteps (move a) = motorSteps a /\ backlashSteps (move a) = backlashSteps a.
Proof.
  intros H. steady_cases a; try discriminate; try (split; reflexivity); lia.
Qed.

Lemma ticks_add (n k : nat) (a : Axis) : ticks (n + k) a = ticks k (ticks n a).
Proof. revert a. induction n as [|n IH]; intros a; cbn; [reflexivity | apply IH]. Qed.

Lemma ticks_S (n : nat) (a : Axis) : ticks (S n) a = move (ticks n a).
Proof.
  replace (S n) with (n + 1)%nat by lia. rewrite ticks_add. reflexivity.
Qed.

Lemma ticks_steady (n : nat) (a : Axis) : steady a -> steady (ticks n a).
Proof.
  revert a. induction n as [|n IH]; intros a H; cbn; [exact H|].
  apply IH, move_steady, H.
Qed.

Lemma ticks_targetSteps (n : nat) (a : Axis) :
  steady a -> targetSteps (ticks n a) = targetSteps a.
Proof.
  revert a. induction n as [|n IH]; intros a H; cbn; [reflexivity|].
  rewrite IH by (apply move_steady, H).
  apply move_targetSteps, H.
Qed.

Lemma ticks_invertStep (n : nat) (a : Axis) : invertStep (ticks n a) = invertStep a.
Proof.
  revert a. induction n as [|n IH]; intros a; cbn; [reflexivity|].
  rewrite IH. apply move_invertStep.
Qed.

Lemma target_error_nonneg (a : Axis) : 0 <= target_error a.
Proof. unfold target_error. lia. Qed.

(** Two consecutive invocations contain one stepping phase. *)
Lemma two_ticks_error (a : Axis) :
  steady a -> target_error (move (move a)) = Z.max 0 (target_error a - 1).
Proof.
  intros H. pose proof (move_steady a H) as H1.
  pose proof (target_error_nonneg a).
  rewrite (move_target_error (move a) H1), (move_target_error a H), move_takeStep.
  destruct (takeStep a); cbn; lia.
Qed.

Lemma ticks_reach_target (k : nat) (a : Axis) :
  steady a -> target_error a <= Z.of_nat k -> target_error (ticks (2 * k) a) = 0.
Proof.
  revert a. induction k as [|k IH]; intros a H Hk.
  - cbn. pose proof (target_error_nonneg a). lia.
  - replace (2 * S k)%nat with (S (S (2 * k))) by lia. cbn [ticks].
    apply IH.
    + apply move_steady, move_steady, H.
    + rewrite two_ticks_error by exact H. lia.
Qed.

Lemma ticks_stay_at_target (n : nat) (a : Axis) :
  steady a -> target_error a = 0 ->
  target_error (ticks n a) = 0
  /\ motorSteps (ticks n a) = motorSteps a
  /\ backlashSteps (ticks n a) = backlashSteps a.
Proof.
  revert a. induction n as [|n IH]; intros a H H0; cbn; [auto|].
  assert (H1 : target_error (move a) = 0).
  { rewrite move_target_error by exact H. destruct (takeStep a); lia. }
  destruct (move_position_at_target a H H0) as [Hm Hb].
  destruct (IH (move a) (move_steady a H) H1) as (? & ? & ?).
  repeat split; congruence.
Qed.

Lemma ticks_idle_at_target (n : nat) (a : Axis) :
  steady a -> target_error a = 0 -> stepPinLevel a = step_idle a ->
  stepPinLevel (ticks n a) = step_idle a.
Proof.
  revert a. induction n as [|n IH]; intros a H H0 Hp; cbn; [exact Hp|].
  assert (H1 : target_error (move a) = 0).
  { rewrite move_target_error by exact H. destruct (takeStep a); lia. }
  assert (Hi : step_idle (move a) = step_idle a).
  { unfold step_idle. now rewrite move_invertStep. }
  rewrite IH; auto using move_steady.
  rewrite Hi, move_stepPin_at_target by assumption.
  destruct (takeStep a); auto.
Qed.

Lemma two_ticks_idle (a : Axis) :
  steady a -> target_error a = 0 -> stepPinLevel (move (move a)) = step_idle a.
Proof.
  intros H H0.
  assert (H1 : target_error (move a) = 0).
  { rewrite move_target_error by exact H. destruct (takeStep a); lia. }
  assert (Hi : step_idle (move a) = step_idle a).
  { unfold step_idle. now rewrite move_invertStep. }
  rewrite move_stepPin_at_target by auto using move_steady.
  rewrite move_takeStep, Hi, move_stepPin_at_target by assumption.
  destruct (takeStep a); reflexivity.
Qed.

(** After [2 * target_error a + 2] invocations the axis is at its target
    with the step pin at rest, and stays so. *)
Lemma ticks_settled (n : nat) (a : Axis) :
  steady a -> (2 * Z.to_nat (target_error a) + 2 <= n)%nat ->
  target_error (ticks n a) = 0 /\ stepPinLevel (ticks n a) = step_idle a.
Proof.
  intros H Hn. set (k := Z.to_nat (target_error a)) in *.
  replace n with (2 * k + (2 + (n - (2 * k + 2))))%nat by lia.
  rewrite ticks_add.
  set (b := ticks (2 * k) a).
  assert (Hb : steady b) by (apply ticks_steady, H).
  assert (Hb0 : target_error b = 0).
  { apply ticks_reach_target; [exact H|]. pose proof (target_error_nonneg a). lia. }
  rewrite ticks_add. cbn [ticks].
  set (c := move (move b)).
  assert (Hc : steady c) by (apply move_steady, move_steady, Hb).
  assert (Hc0 : target_error c = 0).
  { unfold c. rewrite two_ticks_error by exact Hb. lia. }
  assert (Hi : step_idle c = step_idle a).
  { unfold step_idle, c, b. now rewrite !move_invertStep, ticks_invertStep. }
  assert (Hp : stepPinLevel c = step_idle c).
  { unfold c at 1. rewrite two_ticks_idle by assumption.
    unfold step_idle, c. now rewrite !move_invertStep. }
  split.
  - apply ticks_stay_at_target; assumption.
  - rewrite <- Hi. apply ticks_idle_at_target; assumption.
Qed.

(** *** Approaching a target from below *)

Lemma move_climbing (m0 : Z) (a : Axis) : climbing m0 a -> climbing m0 (move a).
Proof.
  intros (Hs & Hle & Hm & Hor).
  split; [apply move_steady, Hs|].
  revert Hle Hm Hor.
  steady_cases a; try discriminate; lia.
Qed.

Lemma ticks_climbing (n : nat) (m0 : Z) (a : Axis) :
  climbing m0 a -> climbing m0 (ticks n a).
Proof.
  revert a. induction n as [|n IH]; intros a H; cbn; [exact H|].
  apply IH, move_climbing, H.
Qed.

Lemma climbing_at_target (m0 : Z) (a : Axis) :
  climbing m0 a -> target_error a = 0 ->
  backlashAmountSteps a <= targetSteps a - m0 ->
  backlashSteps a = backlashAmountSteps a
  /\ motorSteps a = targetSteps a - backlashAmountSteps a.
Proof.
  unfold climbing, steady, backlash_bound, target_error. lia.
Qed.

Lemma ticks_backlashAmountSteps (n : nat) (a : Axis) :
  backlashAmountSteps (ticks n a) = backlashAmountSteps a.
Proof.
  revert a. induction n as [|n IH]; intros a; cbn; [reflexivity|].
  rewrite IH. apply move_backlashAmountSteps.
Qed.

Lemma scenario_A_start (a : Axis) :
  scenario_A a ->
  let a' := setTargetCoordinate 0.2 a in
  climbing 0 a' /\ targetSteps a' = 200 /\ backlashAmountSteps a' = 50
  /\ motorSteps a' = 0 /\ 0 <= backlashSteps a' <= 50.
Proof.
  unfold scenario_A, climbing, steady, unit_step, backlash_bound, long_range.
  destruct a; cbn. intros (-> & -> & -> & Hb & -> & -> & -> & ->).
  assert (E : lsub (lround (0.2 * 1000)) 0 = 200) by (vm_compute; reflexivity).
  rewrite E. lia.
Qed.

Lemma nearTarget_at (a : Axis) (m b t : Z) :
  motorSteps a = m -> backlashSteps a = b -> targetSteps a = t -> step a = 1 ->
  nearTarget a =
    (fabs (long_to_double (lsub (ladd m b) t)) <=? long_to_double 1 * 2.0)%float.
Proof. unfold nearTarget. intros -> -> -> ->. reflexivity. Qed.

(** C2. With tracking off and the target fixed, repeated invocations of
    [Axis::move] never change the target, never increase the distance
    [|motorSteps + backlashSteps - targetSteps|], take one step off it on
    every stepping phase until it is zero, and from then on leave the step
    pin at its idle level.  In scenario A (spm 1000, 50 steps of backlash,
    motor and target at 0, target set to 200 steps by
    [setTargetCoordinate(0.2)]) the axis settles at [motorSteps = 150],
    [backlashSteps = 50] with [nearTarget] true. *)
Theorem monotone_convergence :
  (forall a : Axis, steady a ->
     (forall n, targetSteps (ticks n a) = targetSteps a)
     /\ (forall n, 0 <= target_error (ticks (S n) a) <= target_error (ticks n a))
     /\ (forall n, takeStep (ticks n a) = true -> 0 < target_error (ticks n a) ->
           target_error (ticks (S n) a) = target_error (ticks n a) - 1)
     /\ (forall n, (2 * Z.to_nat (target_error a) + 2 <= n)%nat ->
           target_error (ticks n a) = 0
           /\ stepPinLevel (ticks n a) = step_idle a
           /\ stepPinLevel (ticks (S n) a) = stepPinLevel (ticks n a)))
  /\ (forall a : Axis, scenario_A a ->
      forall n, (402 <= n)%nat ->
        let a' := ticks n (setTargetCoordinate 0.2 a) in
        targetSteps a' = 200
        /\ motorSteps a' = 150
        /\ backlashSteps a' = 50
        /\ nearTarget a' = true).
Proof.
  split.
  - intros a H. split; [|split; [|split]].
    + intros n. apply ticks_targetSteps. exact H.
    + intros n. split; [apply target_error_nonneg|].
      rewrite ticks_S, move_target_error by (apply ticks_steady; exact H).
      pose proof (target_error_nonneg (ticks n a)).
      destruct (takeStep (ticks n a)); lia.
    + intros n Ht Hpos.
      rewrite ticks_S, move_target_error by (apply ticks_steady; exact H).
      rewrite Ht. lia.
    + intros n Hn.
      destruct (ticks_settled n a H Hn) as [H0 Hp].
      destruct (ticks_settled (S n) a H) as [_ Hp']; [lia|].
      split; [exact H0|]. split; [exact Hp|]. congruence.
  - intros a HA n Hn.
    destruct (scenario_A_start a HA) as (Hc & Ht & Hamt & Hm0 & Hb0).
    set (a0 := setTargetCoordinate 0.2 a) in *. cbn zeta.
    assert (Hs : steady a0) by apply Hc.
    assert (He : target_error a0 <= 200).
    { unfold target_error. lia. }
    assert (Hn' : (2 * Z.to_nat (target_error a0) + 2 <= n)%nat) by lia.
    destruct (ticks_settled n a0 Hs Hn') as [H0 _].
    pose proof (ticks_climbing n 0 a0 Hc) as Hcn.
    pose proof (ticks_targetSteps n a0 Hs) as Htn.
    pose proof (ticks_backlashAmountSteps n a0) as Han.
    destruct (climbing_at_target 0 (ticks n a0) Hcn H0) as [Hb Hm]; [lia|].
    assert (Hstep : step (ticks n a0) = 1) by apply (ticks_steady n a0 Hs).
    assert (Hm' : motorSteps (ticks n a0) = 150) by lia.
    assert (Hb' : backlashSteps (ticks n a0) = 50) by lia.
    assert (Ht' : targetSteps (ticks n a0) = 200) by lia.
    repeat split; try assumption.
    rewrite (nearTarget_at _ 150 50 200) by assumption.
    vm_compute. reflexivity.
Qed.

(** ** Frequency to period *)

Lemma SFcompare_finite_antisym (m m' : positive) (e e' : Z) :
  SFcompare (S754_finite false m' e') (S754_finite false m e)
  = option_map CompOpp (SFcompare (S754_finite false m e) (S754_finite false m' e')).
Proof.
  cbn. rewrite (Z.compare_antisym e e').
  destruct (e ?= e'); cbn; try reflexivity.
  f_equal. change (PosDef.Pos.compare_cont Eq) with Pos.compare.
  apply Pos.compare_antisym.
Qed.

(** The guard of [setFrequency] accepts exactly the finite half-periods of
    magnitude at most 134,000,000. *)
Lemma guard_spec (d : float) :
  negb (isnan d) && (fabs d <=? 134000000)%float = negb (out_of_range d).
Proof.
  unfold out_of_range, is_finite, isnan, fabs, is_nan, is_infinity.
  rewrite FloatAxioms.leb_spec, FloatAxioms.ltb_spec, !FloatAxioms.eqb_spec,
    FloatAxioms.abs_spec.
  change (Prim2SF infinity) with (S754_infinity false).
  set (c := Prim2SF 134000000).
  assert (Hc : exists m e, c = S754_finite false m e).
  { unfold c. vm_compute. eauto. }
  destruct Hc as (mc & ec & ->).
  destruct (Prim2SF d) as [s | s | | s m e];
    [reflexivity | destruct s; reflexivity | reflexivity |].
  unfold SFleb, SFltb, SFeqb, SFabs.
  rewrite SFcompare_finite_antisym.
  replace (SFcompare (S754_finite s m e) (S754_finite s m e)) with (Some Eq).
  - cbn. destruct (ec ?= e); try reflexivity.
    destruct (PosDef.Pos.compare_cont Eq mc m); reflexivity.
  - cbn. rewrite Z.compare_refl.
    change (PosDef.Pos.compare_cont Eq m m) with (Pos.compare m m).
    rewrite Pos.compare_refl. destruct s; reflexivity.
Qed.

(** [0 / spm] is a zero for every [spm] that is a number other than zero. *)
Lemma zero_div_spm (s : float) :
  is_nan s = false -> (s =? 0)%float = false -> (0 / s =? 0)%float = true.
Proof.
  unfold is_nan. rewrite !FloatAxioms.eqb_spec, FloatAxioms.div_spec.
  change (Prim2SF 0) with (S754_zero false).
  destruct (Prim2SF s) as [b | b | | b m e]; cbn; intros; try discriminate; reflexivity.
Qed.

Section Frequency.
Context {K : Constants}.
Local Open Scope float_scope.

Lemma setFrequency_cases (clockPeriod : Z) (frequency : float) (a : Axis) :
  let d := half_period frequency a in
  setFrequency clockPeriod frequency a =
    if out_of_range d
    then set_taskPeriod 0%Z (set_lastPeriod 0%Z a)
    else
      set_taskPeriod
        (wrap_ulong (lround (d * 16.0 * (SIDEREAL_PERIOD / long_to_double clockPeriod))))
        (set_lastPeriod (wrap_ulong (lround (d * 16.0))) a).
Proof.
  cbn zeta. unfold setFrequency. fold (half_period frequency a).
  rewrite guard_spec.
  destruct (out_of_range (half_period frequency a)); reflexivity.
Qed.

(** C3. When the half-period [1e6 / (frequency * spm)], clamped from
    below by [minPeriodMicros] and halved, is not finite or has a
    magnitude above 134,000,000 microseconds, [setFrequency] programs the
    period 0, sets [lastPeriod] to 0 and the axis reports the frequency 0
    (in steps, and in measures for a nonzero [spm]).  Otherwise the
    half-period times 16, scaled by [SIDEREAL_PERIOD] over the period of
    the clock and rounded, is the period of the task, and [lastPeriod] is
    the half-period times 16, rounded. *)
Theorem setFrequency_period (clockPeriod : Z) (frequency : float) (a : Axis) :
  let d := half_period frequency a in
  let a' := setFrequency clockPeriod frequency a in
  (out_of_range d = true ->
     taskPeriod a' = 0%Z /\ lastPeriod a' = 0%Z /\ getFrequencySteps a' = 0 /\
     (is_nan (spm a) = false -> (spm a =? 0) = false -> (getFrequency a' =? 0) = true))
  /\
  (out_of_range d = false ->
     taskPeriod a' =
       wrap_ulong (lround (d * 16.0 * (SIDEREAL_PERIOD / long_to_double clockPeriod))) /\
     lastPeriod a' = wrap_ulong (lround (d * 16.0))).
Proof.
  cbn zeta. rewrite setFrequency_cases. cbn zeta.
  split; intros ->.
  - unfold getFrequency, getFrequencySteps.
    destruct a; cbn. repeat split.
    intros Hn Hz. apply zero_div_spm; assumption.
  - destruct a; cbn. auto.
Qed.

End Frequency.

(** ** Tracking rates *)

Section TrackingRates.
Context {K : Constants}.
Local Open Scope float_scope.

(** C4. After [Mount::updateTrackingRates]: on a
    mount that is not altazimuth and is tracking, the rate of the primary
    axis is [trackingRate]; on a mount that is not altazimuth the rate of
    the secondary axis is zero unless the compensation mode is a dual-axis
    one, which leaves it as it was; with tracking off both rates are zero;
    an altazimuth mount that is tracking keeps the rates it has; and each
    axis is given, through [Axis::setFrequency], the sum of its
    tracking, guide and delta rates converted with [siderealToRad]. *)
Theorem updateTrackingRates_split (w : World) :
  let m := mount w in
  let w' := updateTrackingRates w in
  let m' := mount w' in
  (mountType m <> ALTAZM -> trackingState m <> TS_NONE ->
     trackingRateAxis1 m' = trackingRate m)
  /\ (mountType m <> ALTAZM -> dual_axis (rateCompensation m) = false ->
        trackingRateAxis2 m' = 0)
  /\ (trackingState m <> TS_NONE -> dual_axis (rateCompensation m) = true ->
        trackingRateAxis2 m' = trackingRateAxis2 m)
  /\ (trackingState m = TS_NONE ->
        trackingRateAxis1 m' = 0 /\ trackingRateAxis2 m' = 0)
  /\ (mountType m = ALTAZM -> trackingState m <> TS_NONE ->
        trackingRateAxis1 m' = trackingRateAxis1 m
        /\ trackingRateAxis2 m' = trackingRateAxis2 m)
  /\ axis1 w' =
       setFrequency (clock w)
         (siderealToRad (trackingRateAxis1 m' + guideRateAxis1 m + deltaRateAxis1 m))
         (axis1 w)
  /\ axis2 w' =
       setFrequency (clock w)
         (siderealToRad (trackingRateAxis2 m' + guideRateAxis2 m + deltaRateAxis2 m))
         (axis2 w)
  /\ trackingRate m' = trackingRate m.
Proof.
  destruct w as [m a1 a2 c g]. destruct m. cbn.
  unfold updateTrackingRates; cbn.
  destruct (MountType_eq_dec mountType0 ALTAZM);
    destruct trackingState0; destruct rateCompensation0; cbn;
    repeat split; try reflexivity; try congruence; intros; try discriminate.
Qed.

End TrackingRates.

(** The clause for tracking off at work on an equatorial mount: the
    branch runs after the one for the mount type, so the primary axis is
    left with the rate 0 while [trackingRate] keeps its value. *)
Lemma updateTrackingRates_off_overrides :
  let w := demo_world GEM TS_NONE in
  let m' := mount (@updateTrackingRates onstep_constants w) in
  mountType (mount w) = GEM
  /\ trackingRate m' = 1%float
  /\ trackingRateAxis1 m' = 0%float
  /\ (trackingRateAxis1 m' =? trackingRate m')%float = false.
Proof. vm_compute. repeat split. Qed.

(** ** Commands *)

Section Commands.
Context {K : Constants} {X : Collaborators}.
Local Open Scope string_scope.
Local Open Scope Z_scope.

Lemma dispatch_T (c : ascii) (io : CommandIO) (w : World) :
  In c ["r"; "n"; "1"; "2"; "e"; "d"]%char ->
  command (String "T" (String c "")) "" io w = Some (command_T c io w).
Proof.
  cbn [In]. intros H.
  repeat (destruct H as [<- | H]; [reflexivity|]). contradiction.
Qed.

(** [:To#] never reaches the tracking commands: the test
    [command[1] == 'o'] of the overhead-limit setter comes first. *)
Lemma dispatch_To (io : CommandIO) (w : World) :
  command "To" "" io w = Some (command_So "" io w).
Proof. reflexivity. Qed.

Lemma dispatch_Sh (p : string) (io : CommandIO) (w : World) :
  command "Sh" p io w = Some (command_Sh p io w).
Proof. reflexivity. Qed.

Lemma dispatch_So (p : string) (io : CommandIO) (w : World) :
  command "So" p io w = Some (command_So p io w).
Proof. reflexivity. Qed.

Lemma dispatch_Sa (p : string) (io : CommandIO) (w : World) :
  command "Sa" p io w =
    Some (command_target (dmsToDouble p true) Coord.a Coord.set_a degToRad io w).
Proof. reflexivity. Qed.

Lemma dispatch_getB (p : string) (io : CommandIO) (w : World) :
  command "%B" p io w = Some (command_getB p io w).
Proof. reflexivity. Qed.

Lemma dispatch_setB (p : string) (io : CommandIO) (w : World) :
  command "$B" p io w = Some (command_setB p io w).
Proof. reflexivity. Qed.

Lemma dispatch_Gh (io : CommandIO) (w : World) :
  command "Gh" "" io w =
    Some (report (sprintf_plus02ld_star
                    (lround (radToDeg (minAltitude (limits (mount w)))))) io, w).
Proof. reflexivity. Qed.

End Commands.

(** *** Rejected commands and the state *)

Section Rejection.
Context {K : Constants} {X : Collaborators}.
Local Open Scope string_scope.
Local Open Scope Z_scope.

(** On a mount that is not altazimuth, [:Tr#] and [:Tn#] store the new
    compensation mode and then run into the final [else] of the command
    chain that starts at ['1']: the mode is written, the command is
    reported unknown and the tracking rates are not refreshed. *)
Lemma compensation_request_written_and_rejected (io : CommandIO) (w : World) :
  mountType (mount w) <> ALTAZM ->
  command "Tr" "" io w
    = Some (set_commandError CE_CMD_UNKNOWN io, upd_rateCompensation RC_REFR_RA w)
  /\ command "Tn" "" io w
    = Some (set_commandError CE_CMD_UNKNOWN io, upd_rateCompensation RC_NONE w).
Proof.
  intros H.
  rewrite !dispatch_T by (cbn; auto 10).
  unfold command_T, not_altazm; cbn.
  destruct (MountType_eq_dec (mountType (mount w)) ALTAZM); [contradiction|].
  cbn. split; reflexivity.
Qed.

(** A target setter whose parameter does not parse reports the error and
    still converts the stored coordinate to radians once more. *)
Lemma target_setter_converts_on_failure (p : string) (io : CommandIO) (w : World) :
  dmsToDouble p true = None ->
  command "Sa" p io w
    = Some (set_commandError CE_PARAM_RANGE io,
            upd_gotoTarget (fun c => Coord.set_a (degToRad (Coord.a c)) c) w).
Proof. intros H. rewrite dispatch_Sa, H. reflexivity. Qed.

(** The limit setters, the backlash commands and the tracking rate setter
    leave the state alone whenever they report an error. *)
Lemma guarded_setters_reject_atomically (c p : string) (io io' : CommandIO)
    (w w' : World) :
  In c ["Sh"; "So"; "ST"; "$B"; "%B"] ->
  commandError io = CE_NONE ->
  command c p io w = Some (io', w') ->
  commandError io' <> CE_NONE ->
  w' = w.
Proof.
  cbn [In]. intros Hc Hio.
  repeat (destruct Hc as [<- | Hc]); try contradiction;
    match goal with
    | |- command ?c _ _ _ = _ -> _ =>
        change (command c p io w) with (Some (command_Sh p io w))
        || change (command c p io w) with (Some (command_So p io w))
        || change (command c p io w) with (Some (command_ST p io w))
        || change (command c p io w) with (Some (command_setB p io w))
        || change (command c p io w) with (Some (command_getB p io w))
    end;
    unfold command_Sh, command_So, command_ST, command_setB, command_getB;
    repeat break_if;
    try (destruct (atoi2 _)); try (destruct (strtod _)); repeat break_if;
    intros [= <- <-]; cbn; intros Hne; try reflexivity; congruence.
Qed.

(** The tracking commands other than a compensation request that was
    written (['o'], ['r'], ['n'] on a mount that is not altazimuth) leave
    the state alone whenever they report an error. *)
Lemma tracking_commands_reject_atomically (c1 : ascii) (io io' : CommandIO)
    (w w' : World) :
  commandError io = CE_NONE ->
  not_altazm w = false \/ ~ In c1 ["o"; "r"; "n"]%char ->
  command_T c1 io w = (io', w') ->
  commandError io' <> CE_NONE ->
  w' = w.
Proof.
  intros Hio Hc. unfold command_T.
  assert (H1 : (if Ascii.eqb c1 "o" && not_altazm w then upd_rateCompensation RC_FULL_RA w
                else if Ascii.eqb c1 "r" && not_altazm w then upd_rateCompensation RC_REFR_RA w
                else if Ascii.eqb c1 "n" && not_altazm w then upd_rateCompensation RC_NONE w
                else w) = w).
  { destruct Hc as [-> | Hc].
    - rewrite !andb_false_r. reflexivity.
    - cbn [In] in Hc.
      destruct (Ascii.eqb_spec c1 "o"); [subst; exfalso; auto|].
      destruct (Ascii.eqb_spec c1 "r"); [subst; exfalso; auto|].
      destruct (Ascii.eqb_spec c1 "n"); [subst; exfalso; auto|]. reflexivity. }
  rewrite H1. clear H1 Hc.
  repeat (break_if; try (intros [= <- <-]; cbn; intros; try reflexivity; congruence)).
  all: cbn in *; try congruence.
Qed.

End Rejection.

(** C5 fails on the code.  [:Tr#] on an equatorial mount is answered with
    the command-unknown error and has changed the compensation mode;
    [:Sa#] with a parameter that does not parse is answered with the
    parameter-range error and has rescaled the stored target altitude. *)
Lemma rejected_commands_mutate :
  let K := onstep_constants in
  let X := demo_collaborators in
  let w := demo_world GEM TS_SIDEREAL in
  let w1 := upd_gotoTarget (Coord.set_a 0.5) w in
  (exists io' w',
      command "Tr" "" fresh_io w = Some (io', w')
      /\ commandError io' = CE_CMD_UNKNOWN
      /\ rateCompensation (mount w) = RC_NONE
      /\ rateCompensation (mount w') = RC_REFR_RA)
  /\ (exists io' w',
      command "Sa" "x" fresh_io w1 = Some (io', w')
      /\ commandError io' = CE_PARAM_RANGE
      /\ Coord.a (gotoTarget (mount w1)) = 0.5%float
      /\ (Coord.a (gotoTarget (mount w')) <? 0.01)%float = true).
Proof.
  cbn zeta. split; eexists; eexists; (split; [vm_compute; reflexivity|]);
    vm_compute; repeat split.
Qed.

(** *** Compensation requests on an altazimuth mount *)

Section Altazimuth.
Context {K : Constants} {X : Collaborators}.
Local Open Scope string_scope.
Local Open Scope Z_scope.

(** [:To#] on an altazimuth mount: the overhead-limit setter answers, with
    a parameter error or, when the empty parameter reads as a number in
    60..90, by accepting; [rateCompensation] is not touched. *)
Lemma altazm_To (io : CommandIO) (w : World) :
  commandError io = CE_NONE ->
  exists io' w',
    command "To" "" io w = Some (io', w')
    /\ rateCompensation (mount w') = rateCompensation (mount w)
    /\ In (error_kind (commandError io')) [Accepted; ParameterForm; ParameterRange].
Proof.
  intros Hio. rewrite dispatch_To. unfold command_So.
  destruct (atoi2 "") as [deg|];
    [destruct ((60 <=? deg)%Z && (deg <=? 90)%Z)|];
    eexists; eexists; (split; [reflexivity|]); cbn; rewrite ?Hio;
    (split; [|cbn; auto]).
  - destruct w as [m a1 a2 c g]; destruct m; cbn.
    break_if; reflexivity.
  - reflexivity.
  - reflexivity.
Qed.

(** C6, as the code has it. On an altazimuth mount each of [:To#], [:Tr#],
    [:Tn#], [:T1#] and [:T2#] leaves [rateCompensation] as it is and is not
    answered with a state-conflict error; [:Tr#], [:Tn#], [:T1#] and
    [:T2#] are answered with the command-unknown error and change nothing
    at all. *)
Theorem altazm_compensation_requests (io : CommandIO) (w : World) :
  mountType (mount w) = ALTAZM ->
  commandError io = CE_NONE ->
  (forall c, In c ["To"; "Tr"; "Tn"; "T1"; "T2"] ->
     exists io' w',
       command c "" io w = Some (io', w')
       /\ rateCompensation (mount w') = rateCompensation (mount w)
       /\ error_kind (commandError io') <> StateConflict)
  /\ (forall c, In c ["Tr"; "Tn"; "T1"; "T2"] ->
        command c "" io w = Some (set_commandError CE_CMD_UNKNOWN io, w)).
Proof.
  intros Hm Hio.
  assert (Hu : forall c, In c ["Tr"; "Tn"; "T1"; "T2"] ->
                 command c "" io w = Some (set_commandError CE_CMD_UNKNOWN io, w)).
  { cbn [In]. intros c Hc.
    repeat (destruct Hc as [<- | Hc]); try contradiction;
      rewrite dispatch_T by (cbn; auto 10);
      unfold command_T, not_altazm; cbn; rewrite Hm; cbn; reflexivity. }
  split; [|exact Hu].
  intros c [<- | Hc].
  - destruct (altazm_To io w Hio) as (io' & w' & Hc & Hr & Hk).
    exists io', w'. split; [exact Hc|]. split; [exact Hr|].
    cbn [In] in Hk. intros E. rewrite E in Hk.
    repeat (destruct Hk as [Hk | Hk]; [discriminate|]). contradiction.
  - exists (set_commandError CE_CMD_UNKNOWN io), w.
    split; [apply Hu, Hc|]. split; [reflexivity|]. cbn. discriminate.
Qed.

End Altazimuth.

Lemma altazm_compensation_requests_witness :
  let K := onstep_constants in
  let X := demo_collaborators in
  let w := demo_world ALTAZM TS_SIDEREAL in
  (forall c, In c ["To"; "Tr"; "Tn"; "T1"; "T2"]%string ->
     exists io' w',
       command c "" fresh_io w = Some (io', w')
       /\ rateCompensation (mount w') = rateCompensation (mount w)
       /\ error_kind (commandError io') <> StateConflict)
  /\ (forall c, In c ["Tr"; "Tn"; "T1"; "T2"]%string ->
        command c "" fresh_io w = Some (set_commandError CE_CMD_UNKNOWN fresh_io, w)).
Proof.
  exact (@altazm_compensation_requests onstep_constants demo_collaborators fresh_io
           (demo_world ALTAZM TS_SIDEREAL) eq_refl eq_refl).
Defined.

(** C6 as stated fails: the answer to [:Tr#] on an altazimuth mount is the
    command-unknown error, which is not a state conflict. *)
Lemma altazm_Tr_is_command_unknown :
  let K := onstep_constants in
  let X := demo_collaborators in
  exists io' w',
    command "Tr" "" fresh_io (demo_world ALTAZM TS_SIDEREAL) = Some (io', w')
    /\ commandError io' = CE_CMD_UNKNOWN
    /\ error_kind (commandError io') = CommandUnknown.
Proof.
  cbn zeta. eexists; eexists. split; [vm_compute; reflexivity|].
  vm_compute. split; reflexivity.
Qed.

(** *** The elevation limits *)

Section Limits.
Context {K : Constants} {X : Collaborators}.
Local Open Scope string_scope.
Local Open Scope Z_scope.

(** [:So#] accepts every value in 60..90.  The stored limit is compared
    with 87 after the conversion to radians. *)
Lemma overhead_limit_accepts (p : string) (deg : Z) (io : CommandIO) (w : World) :
  atoi2 p = Some deg -> 60 <= deg <= 90 ->
  exists w',
    command "So" p io w = Some (io, w')
    /\ maxAltitude (limits (mount w')) =
         if negb (not_altazm w) && (87 <? degToRad (long_to_double deg))%float
         then 87%float else degToRad (long_to_double deg).
Proof.
  intros Hp Hd. rewrite dispatch_So. unfold command_So. rewrite Hp.
  replace ((60 <=? deg) && (deg <=? 90)) with true by lia.
  eexists. split; [reflexivity|].
  destruct w as [m a1 a2 c g]; destruct m; unfold not_altazm; cbn.
  destruct (MountType_eq_dec mountType0 ALTAZM); cbn; [|reflexivity].
  break_if; reflexivity.
Qed.

(** C8, as the code has it. [:Sh#] with a value within [-30, 30] is
    accepted and stores it, and (degrees surviving the conversion to
    radians and back) the next [:Gh#] reports that value; with a value
    outside [-30, 30], 45 included, it answers with the parameter-range
    error and changes nothing. *)
Theorem horizon_limit_setter (p : string) (deg : Z) (io : CommandIO) (w : World) :
  atoi2 p = Some deg ->
  (-30 <= deg <= 30 ->
     exists w',
       command "Sh" p io w = Some (io, w')
       /\ minAltitude (limits (mount w')) = degToRad (long_to_double deg)
       /\ (degrees_round_trip ->
           forall io2,
             option_map (fun r => reply (fst r)) (command "Gh" "" io2 w')
             = Some (sprintf_plus02ld_star deg)))
  /\ (deg < -30 \/ 30 < deg ->
        command "Sh" p io w = Some (set_commandError CE_PARAM_RANGE io, w)).
Proof.
  intros Hp. rewrite dispatch_Sh. unfold command_Sh. rewrite Hp. split; intros Hd.
  - replace ((-30 <=? deg) && (deg <=? 30)) with true by lia.
    eexists. split; [reflexivity|].
    destruct w as [m a1 a2 c g]; destruct m; cbn.
    split; [reflexivity|].
    intros Hrt io2. rewrite Hrt by exact Hd. reflexivity.
  - replace ((-30 <=? deg) && (deg <=? 30)) with false by lia.
    reflexivity.
Qed.

End Limits.

Lemma onstep_degrees_round_trip : @degrees_round_trip onstep_constants.
Proof.
  assert (H : forall n : nat, (n <= 60)%nat ->
            lround (@radToDeg onstep_constants
                      (@degToRad onstep_constants (long_to_double (Z.of_nat n - 30))))
            = Z.of_nat n - 30).
  { intros n. do 61 (destruct n as [|n]; [intros _; vm_compute; reflexivity|]).
    intros Hn. exfalso. lia. }
  intros deg Hd.
  replace deg with (Z.of_nat (Z.to_nat (deg + 30)) - 30) by lia.
  apply H. lia.
Qed.

Lemma horizon_limit_setter_witness :
  let K := onstep_constants in
  let X := demo_collaborators in
  let w := demo_world GEM TS_SIDEREAL in
  atoi2 "30" = Some 30
  /\ exists w',
       command "Sh" "30" fresh_io w = Some (fresh_io, w')
       /\ option_map (fun r => reply (fst r)) (command "Gh" "" fresh_io w')
          = Some "+30*"%string.
Proof.
  cbn zeta. split; [reflexivity|].
  destruct (proj1 (@horizon_limit_setter onstep_constants demo_collaborators "30" 30
                     fresh_io (demo_world GEM TS_SIDEREAL) eq_refl))
    as (w' & Hc & _ & Hr).
  - lia.
  - exists w'. split; [exact Hc|].
    exact (Hr onstep_degrees_round_trip fresh_io).
Defined.

(** C8 as stated fails: [:Sh45#] is answered with the parameter-range error
    and the limit stays as it was. *)
Lemma horizon_limit_45_rejected :
  let K := onstep_constants in
  let X := demo_collaborators in
  let w := demo_world GEM TS_SIDEREAL in
  atoi2 "45" = Some 45
  /\ command "Sh" "45" fresh_io w = Some (set_commandError CE_PARAM_RANGE fresh_io, w)
  /\ error_kind (commandError (set_commandError CE_PARAM_RANGE fresh_io)) = ParameterRange.
Proof. cbn zeta. repeat split; vm_compute; reflexivity. Qed.

(** C7 fails on the code.  On an altazimuth mount [:So90#] is accepted and
    the stored limit is 90 degrees: the limit is compared with 87 when it
    is already in radians, so the clamp never applies to an accepted
    value.  The next [:Go#] reports 90. *)
Lemma overhead_limit_not_clamped :
  let K := onstep_constants in
  let X := demo_collaborators in
  let w := demo_world ALTAZM TS_SIDEREAL in
  exists io' w',
    command "So" "90" fresh_io w = Some (io', w')
    /\ commandError io' = CE_NONE
    /\ maxAltitude (limits (mount w')) = degToRad 90
    /\ (87 <? radToDeg (maxAltitude (limits (mount w'))))%float = true
    /\ option_map (fun r => reply (fst r)) (command "Go" "" fresh_io w') = Some "90*"%string.
Proof.
  cbn zeta. eexists; eexists. split; [vm_compute; reflexivity|].
  vm_compute. repeat split.
Qed.

(** *** Backlash *)

(** [getBacklash] divides the backlash taken up, [backlashSteps], by [spm];
    [setBacklash] writes [backlashAmountSteps].  The getter does not see
    what the setter stored. *)
Lemma getBacklash_ignores_setBacklash (v : float) (a : Axis) :
  getBacklash (setBacklash v a) = getBacklash a
  /\ backlashSteps (setBacklash v a) = backlashSteps a
  /\ backlashAmountSteps (setBacklash v a) = double_to_long (v * spm a)%float.
Proof. destruct a; cbn. auto. Qed.

(** C9 fails on the code.  On an axis of 1000 steps per measure with no
    backlash taken up, [setBacklash(0.25)] configures 250 steps and
    [getBacklash()] returns 0; [:$BD3600#] followed by [:%BD#] is answered
    with 0. *)
Lemma backlash_round_trip_fails :
  let K := onstep_constants in
  let X := demo_collaborators in
  let a := setBacklash 0.25 (demo_axis 0) in
  backlashAmountSteps a = 250
  /\ getBacklash a = 0%float
  /\ (exists io1 w1 io2 w2,
        command "$B" "D3600" fresh_io (demo_world GEM TS_SIDEREAL) = Some (io1, w1)
        /\ commandError io1 = CE_NONE
        /\ backlashAmountSteps (axis2 w1) = 17
        /\ command "%B" "D" fresh_io w1 = Some (io2, w2)
        /\ reply io2 = "0"%string).
Proof.
  cbn zeta. split; [vm_compute; reflexivity|]. split; [vm_compute; reflexivity|].
  do 4 eexists. split; [vm_compute; reflexivity|].
  split; [reflexivity|]. split; [reflexivity|].
  split; [vm_compute; reflexivity|]. reflexivity.
Qed.

Section BacklashRead.
Context {K : Constants} {X : Collaborators}.
Local Open Scope string_scope.
Local Open Scope Z_scope.

Lemma backlash_reply_clamped (ax : Axis) :
  backlash_reply ax
  = sprintf_d (clamp_arcsec (double_to_long (radToArcsec (getBacklash ax)))).
Proof.
  unfold backlash_reply, clamp_arcsec.
  generalize (double_to_long (radToArcsec (getBacklash ax))). intros n.
  destruct (n <? 0) eqn:E1.
  - change (0 >? 3600) with false. cbv iota. f_equal. lia.
  - destruct (n >? 3600) eqn:E2; f_equal; lia.
Qed.

(** C10. In every state [:%BR#] and [:%BD#] have the same effect and the
    same reply: the backlash value of axis 2 in arc-seconds, kept within
    [0, 3600].  Whatever axis 1 holds, the reply to [:%BR#] is the same. *)
Theorem backlash_read_uses_axis2 (io : CommandIO) (w : World) :
  command "%B" "R" io w = command "%B" "D" io w
  /\ command "%B" "R" io w
     = Some (set_numericReply false (set_reply (backlash_reply (axis2 w)) io), w)
  /\ backlash_reply (axis2 w)
     = sprintf_d (clamp_arcsec (double_to_long (radToArcsec (getBacklash (axis2 w)))))
  /\ 0 <= clamp_arcsec (double_to_long (radToArcsec (getBacklash (axis2 w)))) <= 3600
  /\ (forall ax1 : Axis,
        option_map (fun r => reply (fst r)) (command "%B" "R" io (set_axis1 ax1 w))
        = option_map (fun r => reply (fst r)) (command "%B" "R" io w)).
Proof.
  rewrite !dispatch_getB. unfold command_getB. cbn.
  split; [reflexivity|]. split; [reflexivity|].
  split; [apply backlash_reply_clamped|].
  split; [unfold clamp_arcsec; lia|].
  intros ax1. destruct w; reflexivity.
Qed.

End BacklashRead.

(** ** Worked examples *)

Example backlash_trace_values :
  map backlashSteps
    (trace [SetTargetCoordinate 0.003; Tick; Tick; Tick; Tick; Tick; Tick;
            SetTargetCoordinate 0; Tick; Tick; Tick; Tick; Tick; Tick]
       (demo_axis 1))
  = [0; 0; 1; 1; 1; 1; 1; 1; 1; 0; 0; 0; 0; 0].
Proof. vm_compute. reflexivity. Qed.

Lemma backlash_bound_invariant_witness :
  Forall backlash_bound
    (trace [SetTargetCoordinate 0.003; Tick; Tick; SetTracking true; Tick; Tick;
            MoveTargetCoordinate (-0.5); Tick; Tick; SetTracking false; Tick; Tick]
       (demo_axis 1)).
Proof.
  apply backlash_bound_invariant.
  - reflexivity.
  - unfold long_range; cbn; lia.
  - unfold backlash_bound; cbn; lia.
Defined.

Example scenario_A_by_evaluation :
  let a := ticks 400 (setTargetCoordinate 0.2 (demo_axis 50)) in
  (motorSteps a, backlashSteps a, targetSteps a, nearTarget a) = (150, 50, 200, true).
Proof. vm_compute. reflexivity. Qed.

Lemma monotone_convergence_witness :
  let a := ticks 402 (setTargetCoordinate 0.2 (demo_axis 50)) in
  targetSteps a = 200 /\ motorSteps a = 150 /\ backlashSteps a = 50 /\ nearTarget a = true.
Proof.
  cbn zeta. apply (proj2 monotone_convergence (demo_axis 50)).
  - unfold scenario_A, unit_step; cbn; repeat split; lia.
  - apply le_n.
Defined.

(** Scenario B: an axis running at 0.001 measures per second is asked for
    0.000001 measures per second; the half-period would be 500 seconds. *)
Lemma setFrequency_period_witness :
  let K := onstep_constants in
  let a1 := setFrequency 15956313 0.001 (demo_axis 50) in
  let a2 := setFrequency 15956313 0.000001 a1 in
  lastPeriod a1 = 8000000
  /\ out_of_range (half_period 0.000001 a1) = true
  /\ taskPeriod a2 = 0 /\ lastPeriod a2 = 0
  /\ getFrequencySteps a2 = 0%float
  /\ (getFrequency a2 =? 0)%float = true.
Proof.
  cbn zeta.
  set (a1 := @setFrequency onstep_constants 15956313 0.001 (demo_axis 50)).
  assert (Hout : out_of_range (half_period 0.000001 a1) = true)
    by (vm_compute; reflexivity).
  destruct (proj1 (@setFrequency_period onstep_constants 15956313 0.000001 a1) Hout)
    as (Ht & Hl & Hs & Hf).
  split; [vm_compute; reflexivity|].
  split; [exact Hout|].
  split; [exact Ht|]. split; [exact Hl|]. split; [exact Hs|].
  apply Hf; vm_compute; reflexivity.
Defined.

(** * Further properties of the axis *)

Lemma wrap_long_idem (z : Z) : wrap_long (wrap_long z) = wrap_long z.
Proof. apply wrap_long_id, wrap_long_range. Qed.

Lemma ladd_lsub_cancel (s m : Z) : ladd m (lsub s m) = wrap_long s.
Proof.
  unfold ladd, lsub, wrap_long. f_equal.
  replace (m + ((s - m + 2 ^ 31) mod 2 ^ 32 - 2 ^ 31) + 2 ^ 31)
    with (m + (s - m + 2 ^ 31) mod 2 ^ 32) by lia.
  rewrite Z.add_mod_idemp_r by lia. f_equal. lia.
Qed.

Lemma lsub_ladd_cancel (s i : Z) : ladd (lsub s i) i = wrap_long s.
Proof.
  unfold ladd, lsub, wrap_long. f_equal.
  replace ((s - i + 2 ^ 31) mod 2 ^ 32 - 2 ^ 31 + i + 2 ^ 31)
    with ((s - i + 2 ^ 31) mod 2 ^ 32 + i) by lia.
  rewrite Z.add_mod_idemp_l by lia. f_equal. lia.
Qed.

Lemma move_set_indexSteps (i : Z) (a : Axis) :
  move (set_indexSteps i a) = set_indexSteps i (move a).
Proof. axis_cases a; reflexivity. Qed.

Lemma ticks_set_indexSteps (n : nat) (i : Z) (a : Axis) :
  ticks n (set_indexSteps i a) = set_indexSteps i (ticks n a).
Proof.
  revert a. induction n as [|n IH]; intros a; cbn; [reflexivity|].
  rewrite move_set_indexSteps. apply IH.
Qed.

(** X1. [setInstrumentCoordinate] re-labels the position and nothing else:
    the instrument coordinate read back in steps is the value times [spm]
    with the fraction dropped, in every state and whatever the 32-bit
    arithmetic wraps; motor, backlash and target are as before, and the
    generator goes on exactly as it would have without the call. *)
Theorem relabel_keeps_motion (value : float) (a : Axis) :
  let a' := setInstrumentCoordinate value a in
  getInstrumentCoordinateSteps a' = double_to_long (value * spm a)%float
  /\ getMotorCoordinateSteps a' = getMotorCoordinateSteps a
  /\ target_error a' = target_error a
  /\ forall n,
       motorSteps (ticks n a') = motorSteps (ticks n a)
       /\ backlashSteps (ticks n a') = backlashSteps (ticks n a)
       /\ targetSteps (ticks n a') = targetSteps (ticks n a)
       /\ stepPinLevel (ticks n a') = stepPinLevel (ticks n a)
       /\ dirPinLevel (ticks n a') = dirPinLevel (ticks n a).
Proof.
  cbn zeta. unfold setInstrumentCoordinate.
  split; [|split; [|split]].
  - unfold getInstrumentCoordinateSteps. destruct a; cbn.
    rewrite ladd_lsub_cancel. apply wrap_long_idem.
  - destruct a; reflexivity.
  - destruct a; reflexivity.
  - intros n. rewrite ticks_set_indexSteps.
    destruct (ticks n a); cbn. repeat split.
Qed.

(** X2. After either target mutator the step target plus the index is the
    floating-point target rounded to the nearest step, in every state:
    relative moves add up in the unrounded [target], so the rounding of
    one move is not carried into the next. *)
Theorem target_is_rounded (v1 v2 : float) (a : Axis) :
  let a1 := setTargetCoordinate v1 a in
  let a2 := moveTargetCoordinate v2 a1 in
  ladd (targetSteps a1) (indexSteps a1) = lround (v1 * spm a)%float
  /\ ladd (targetSteps a2) (indexSteps a2) = lround (v1 * spm a + v2 * spm a)%float
  /\ motorSteps a2 = motorSteps a
  /\ backlashSteps a2 = backlashSteps a
  /\ indexSteps a2 = indexSteps a.
Proof.
  cbn zeta. unfold moveTargetCoordinate, setTargetCoordinate.
  destruct a; cbn. rewrite !lsub_ladd_cancel.
  unfold lround. rewrite !wrap_long_idem. repeat split.
Qed.

Lemma move_at_rest (value : Z) (a : Axis) : at_rest value a -> at_rest value (move a).
Proof.
  unfold at_rest, long_range. intros (Ht & Hm & Hb & Htg & Hi & Hr).
  destruct a; cbn in *; subst. unfold move; cbn. unfold ladd.
  rewrite Z.add_0_r, wrap_long_id by (unfold long_range; lia).
  replace (value >? value) with false by lia.
  replace (value <? value) with false by lia.
  destruct takeStep0; cbn; repeat break_if; cbn; repeat split; lia.
Qed.

Lemma ticks_at_rest (n : nat) (value : Z) (a : Axis) :
  at_rest value a -> at_rest value (ticks n a).
Proof.
  revert a. induction n as [|n IH]; intros a H; cbn; [exact H|].
  apply IH, move_at_rest, H.
Qed.

(** X3. [setMotorCoordinateSteps] is a hard reset: with tracking off the
    axis then stays where it was put through any number of invocations of
    the generator: motor, target, motor coordinate and instrument
    coordinate are all [value], no backlash is taken up. *)
Theorem reset_stays_at_rest (value : Z) (a : Axis) (n : nat) :
  tracking a = false ->
  long_range value ->
  let a' := ticks n (setMotorCoordinateSteps value a) in
  motorSteps a' = value
  /\ backlashSteps a' = 0
  /\ targetSteps a' = value
  /\ getMotorCoordinateSteps a' = value
  /\ getInstrumentCoordinateSteps a' = value.
Proof.
  intros Ht Hr. cbn zeta.
  assert (H : at_rest value (setMotorCoordinateSteps value a)).
  { unfold at_rest. destruct a; cbn in *. auto 10. }
  destruct (ticks_at_rest n value _ H) as (_ & Hm & Hb & Htg & Hi & _).
  unfold getMotorCoordinateSteps, getInstrumentCoordinateSteps, ladd.
  rewrite Hm, Hb, Htg, Hi, Z.add_0_r, wrap_long_id by exact Hr. auto.
Qed.

Lemma reset_stays_at_rest_witness :
  let a' := ticks 7 (setMotorCoordinateSteps 1234 (move (setTargetCoordinate 0.2 (demo_axis 50)))) in
  motorSteps a' = 1234
  /\ backlashSteps a' = 0
  /\ targetSteps a' = 1234
  /\ getMotorCoordinateSteps a' = 1234
  /\ getInstrumentCoordinateSteps a' = 1234.
Proof.
  apply (reset_stays_at_rest 1234 (move (setTargetCoordinate 0.2 (demo_axis 50))) 7).
  - reflexivity.
  - unfold long_range. lia.
Defined.

(** *** The rest position *)

Lemma move_descending (m0 : Z) (a : Axis) : descending m0 a -> descending m0 (move a).
Proof.
  intros (Hs & Hle & Hm & Hor).
  split; [apply move_steady, Hs|].
  revert Hle Hm Hor.
  steady_cases a; try discriminate; lia.
Qed.

Lemma ticks_descending (n : nat) (m0 : Z) (a : Axis) :
  descending m0 a -> descending m0 (ticks n a).
Proof.
  revert a. induction n as [|n IH]; intros a H; cbn; [exact H|].
  apply IH, move_descending, H.
Qed.

(** X4. Backlash is a play operator.  With tracking off, once the axis has
    settled on a fixed target [t] the motor rests at
    [max (min m0 t) (t - backlashAmountSteps)], where [m0] is where it
    started, and the backlash taken up is the rest of the way to [t]: the
    motor only moves after the whole backlash has been taken up (going up)
    or released (going down). *)
Theorem rest_position_is_play (a : Axis) (n : nat) :
  steady a ->
  (2 * Z.to_nat (target_error a) + 2 <= n)%nat ->
  let m := rest_motor (motorSteps a) (backlashAmountSteps a) (targetSteps a) in
  motorSteps (ticks n a) = m
  /\ backlashSteps (ticks n a) = targetSteps a - m.
Proof.
  intros Hs Hn. cbn zeta. unfold rest_motor.
  destruct (ticks_settled n a Hs Hn) as [H0 _].
  pose proof (ticks_targetSteps n a Hs) as Ht.
  pose proof (ticks_backlashAmountSteps n a) as Ha.
  pose proof (ticks_steady n a Hs) as Hsn.
  destruct (Z_le_gt_dec (motorSteps a + backlashSteps a) (targetSteps a)) as [Hle | Hgt].
  - assert (Hc : climbing (motorSteps a) a) by (unfold climbing; auto with zarith).
    apply (ticks_climbing n) in Hc.
    unfold climbing, steady, backlash_bound, target_error in *. lia.
  - assert (Hd : descending (motorSteps a) a) by (unfold descending; auto with zarith).
    apply (ticks_descending n) in Hd.
    unfold descending, steady, backlash_bound, target_error in *. lia.
Qed.

Lemma rest_position_is_play_witness :
  let a := setTargetCoordinate 0.03 (ticks 402 (setTargetCoordinate 0.2 (demo_axis 50))) in
  (motorSteps a, backlashSteps a, targetSteps a) = (150, 50, 30)
  /\ motorSteps (ticks 342 a) = 30
  /\ backlashSteps (ticks 342 a) = 30 - 30.
Proof.
  intros a.
  assert (Hs : steady a).
  { unfold steady, unit_step, backlash_bound, long_range. vm_compute. intuition congruence. }
  assert (Hn : (2 * Z.to_nat (target_error a) + 2 <= 342)%nat).
  { vm_compute. repeat constructor. }
  destruct (rest_position_is_play a 342 Hs Hn) as [Hm Hb].
  assert (E : rest_motor (motorSteps a) (backlashAmountSteps a) (targetSteps a) = 30)
    by (vm_compute; reflexivity).
  assert (Et : targetSteps a = 30) by (vm_compute; reflexivity).
  rewrite E in Hm, Hb. rewrite Et in Hb.
  split; [vm_compute; reflexivity|]. split; [exact Hm | exact Hb].
Defined.

(** *** Step and direction phases *)

(** X5. An invocation of [Axis::move] is either a stepping phase or a
    direction phase, in turn.  A stepping phase leaves the direction flag
    and the direction pin alone; a direction phase leaves motor, backlash
    and target alone and puts the step pin at its idle level.  The
    direction pin is only written when the direction flag changes, and a
    pin that shows the flag goes on showing it. *)
Theorem step_and_direction_phases (a : Axis) :
  takeStep (move a) = negb (takeStep a)
  /\ (takeStep a = true ->
        dirFwd (move a) = dirFwd a /\ dirPinLevel (move a) = dirPinLevel a)
  /\ (takeStep a = false ->
        motorSteps (move a) = motorSteps a
        /\ backlashSteps (move a) = backlashSteps a
        /\ targetSteps (move a) = targetSteps a
        /\ stepPinLevel (move a) = step_idle a)
  /\ (dirFwd (move a) = dirFwd a -> dirPinLevel (move a) = dirPinLevel a)
  /\ (dirPinLevel a = dir_level a -> dirPinLevel (move a) = dir_level (move a)).
Proof.
  unfold dir_level, step_idle.
  axis_cases a; repeat split; intros; subst; cbn in *;
    try reflexivity; try discriminate; try assumption.
Qed.

Lemma direction_phase (a : Axis) :
  steady a -> takeStep a = false ->
  position (move a) = position a
  /\ (targetSteps a < position a -> dirFwd (move a) = true)
  /\ (position a < targetSteps a -> dirFwd (move a) = false).
Proof.
  intros H Ht. unfold position. revert Ht.
  steady_cases a; try discriminate; repeat split; intros; try reflexivity; try lia;
    try (destruct dirFwd0; cbn in *; try reflexivity; discriminate).
Qed.

Lemma stepping_phase (a : Axis) :
  steady a -> takeStep a = true ->
  (position (move a) < position a ->
     targetSteps a < position a /\ position (move a) = position a - 1)
  /\ (position (move a) > position a ->
        position a < targetSteps a /\ position (move a) = position a + 1)
  /\ dirFwd (move a) = dirFwd a.
Proof.
  intros H Ht. unfold position. revert Ht.
  steady_cases a; try discriminate; repeat split; intros; try reflexivity; lia.
Qed.

(** X6. On a fixed target every step goes the way the direction flag was
    left by the direction phase before it: the position goes down only
    with [dirFwd] set and up only with [dirFwd] clear, and it moves by one
    step at most. *)
Theorem steps_follow_direction (a : Axis) :
  steady a ->
  takeStep a = false ->
  let b := move a in
  let c := move b in
  (position c < position b -> dirFwd b = true /\ position c = position b - 1)
  /\ (position c > position b -> dirFwd b = false /\ position c = position b + 1)
  /\ dirFwd c = dirFwd b.
Proof.
  intros H Ht. cbn zeta.
  destruct (direction_phase a H Ht) as (Hp & Hup & Hdown).
  pose proof (move_steady a H) as Hb.
  assert (Htb : takeStep (move a) = true) by (rewrite move_takeStep, Ht; reflexivity).
  assert (Htg : targetSteps (move a) = targetSteps a) by (apply move_targetSteps, H).
  destruct (stepping_phase (move a) Hb Htb) as (Hlt & Hgt & Hd).
  rewrite Htg, Hp in Hlt, Hgt.
  split; [|split; [|exact Hd]].
  - intros Hc. rewrite Hp in Hc. destruct (Hlt Hc) as [H1 H2].
    split; [apply Hup, H1 | rewrite Hp; exact H2].
  - intros Hc. rewrite Hp in Hc. destruct (Hgt Hc) as [H1 H2].
    split; [apply Hdown, H1 | rewrite Hp; exact H2].
Qed.

Lemma steps_follow_direction_witness :
  let a := setTargetCoordinate (-0.1) (ticks 402 (setTargetCoordinate 0.2 (demo_axis 50))) in
  let b := move a in
  let c := move b in
  takeStep a = false
  /\ position c = position b - 1
  /\ dirFwd b = true
  /\ dirFwd c = dirFwd b.
Proof.
  intros a b c.
  assert (Hs : steady a).
  { unfold steady, unit_step, backlash_bound, long_range. vm_compute. intuition congruence. }
  assert (Ht : takeStep a = false) by (vm_compute; reflexivity).
  destruct (steps_follow_direction a Hs Ht) as (Hdown & _ & Hkeep).
  fold b in Hdown, Hkeep. fold c in Hdown, Hkeep.
  assert (Hlt : position c < position b) by (vm_compute; reflexivity).
  destruct (Hdown Hlt) as [Hd Hp].
  auto.
Defined.

(** *** Tracking *)

Lemma move_locked (room : Z) (a : Axis) :
  0 <= room ->
  locked (room + 1) a ->
  locked room (move a)
  /\ trackingStep (move a) = trackingStep a
  /\ targetSteps (move a)
     = targetSteps a + (if takeStep a then trackingStep a else 0).
Proof.
  unfold locked, unit_step, backlash_bound, long_range. intros Hroom H.
  destruct a; cbn in *.
  destruct H as (-> & -> & Hts & Hb & Ha & Hp & Hlo & Hhi).
  unfold move; cbn. unfold ladd, lsub.
  destruct takeStep0; cbn.
  - rewrite (wrap_long_id (targetSteps0 + trackingStep0)) by (unfold long_range; lia).
    rewrite (wrap_long_id (motorSteps0 + backlashSteps0)) by (unfold long_range; lia).
    repeat (break_if; cbn); repeat split;
      repeat rewrite wrap_long_id by (unfold long_range; lia); lia.
  - rewrite (wrap_long_id (motorSteps0 + backlashSteps0)) by (unfold long_range; lia).
    repeat (break_if; cbn); repeat split; lia.
Qed.

Lemma stepping_phases_S (n : nat) (a : Axis) :
  stepping_phases a (S n)
  = (if takeStep a then 1 else 0) + stepping_phases (move a) n.
Proof.
  unfold stepping_phases. rewrite move_takeStep.
  destruct (takeStep a); cbn [negb].
  - replace (S n + 1)%nat with (n + 0 + 1 * 2)%nat by lia.
    rewrite Nat.div_add by lia. lia.
  - replace (S n + 0)%nat with (n + 1)%nat by lia. lia.
Qed.

(** X7. Tracking keeps the axis on its target.  An axis that sits on its
    target and tracks by at most one unit step per stepping phase is on
    its target again after every invocation, and after [n] invocations
    the target has advanced by [trackingStep] once per stepping phase
    (every second invocation), as long as the counters stay within a
    [long]. *)
Theorem tracking_follows_target (n : nat) (a : Axis) :
  locked (Z.of_nat n) a ->
  target_error (ticks n a) = 0
  /\ targetSteps (ticks n a) = targetSteps a + trackingStep a * stepping_phases a n
  /\ backlash_bound (ticks n a).
Proof.
  revert a. induction n as [|n IH]; intros a H.
  - cbn. unfold stepping_phases, locked, target_error in *.
    destruct (takeStep a); cbn; intuition lia.
  - cbn [ticks].
    replace (Z.of_nat (S n)) with (Z.of_nat n + 1) in H by lia.
    destruct (move_locked (Z.of_nat n) a) as (Hl & Hts & Htg); [lia | exact H |].
    destruct (IH (move a) Hl) as (He & Ht & Hb).
    rewrite stepping_phases_S, Ht, Hts, Htg.
    split; [exact He|]. split; [|exact Hb].
    destruct (takeStep a); lia.
Qed.

Lemma tracking_follows_target_witness :
  let a := setTracking true (demo_axis 50) in
  target_error (ticks 1000 a) = 0
  /\ targetSteps (ticks 1000 a) = 0 + 1 * 500
  /\ backlash_bound (ticks 1000 a).
Proof.
  intros a.
  assert (H : locked (Z.of_nat 1000) a).
  { unfold locked, unit_step, backlash_bound, long_range. cbn. repeat split; lia. }
  destruct (tracking_follows_target 1000 a H) as (He & Ht & Hb).
  assert (E : stepping_phases a 1000 = 500) by (vm_compute; reflexivity).
  rewrite E in Ht.
  split; [exact He|]. split; [exact Ht | exact Hb].
Defined.

(** *** A backlash amount lowered under the backlash taken up *)

Lemma move_backlash_cap (cap : Z) (a : Axis) :
  unit_step a ->
  0 <= backlashSteps a <= cap ->
  backlashAmountSteps a <= cap ->
  cap < 2 ^ 31 ->
  0 <= backlashSteps (move a) <= cap
  /\ (backlashAmountSteps a < backlashSteps a -> backlashSteps (move a) <= backlashSteps a).
Proof.
  unfold unit_step.
  axis_cases a; intros; subst; unfold ladd, lsub;
    try rewrite wrap_long_id by (unfold long_range; lia); lia.
Qed.

(** X8. [setBacklash] does not touch the backlash taken up, so an amount
    lowered under it leaves [backlashSteps] above [backlashAmountSteps];
    the generator then never raises it: through any number of invocations
    [backlashSteps] stays between 0 and the larger of its old value and
    the new amount. *)
Theorem lowered_backlash_is_not_exceeded (value : float) (a : Axis) (n : nat) :
  unit_step a ->
  0 <= backlashSteps a < 2 ^ 31 ->
  let a' := setBacklash value a in
  backlashSteps a' = backlashSteps a
  /\ 0 <= backlashSteps (ticks n a')
       <= Z.max (backlashSteps a) (backlashAmountSteps a').
Proof.
  intros Hu Hb. cbn zeta. split; [destruct a; reflexivity|].
  set (a' := setBacklash value a).
  set (cap := Z.max (backlashSteps a) (backlashAmountSteps a')).
  assert (Hcap : cap < 2 ^ 31).
  { unfold cap, a', setBacklash, double_to_long.
    destruct a; cbn [backlashSteps backlashAmountSteps set_backlashAmountSteps spm] in *.
    pose proof (wrap_long_range (trunc (value * spm0))) as Hr.
    unfold long_range in Hr. lia. }
  assert (Ha' : unit_step a' /\ 0 <= backlashSteps a' <= cap
                /\ backlashAmountSteps a' <= cap).
  { unfold cap, a', unit_step, setBacklash in *. destruct a; cbn [step backlashSteps backlashAmountSteps set_backlashAmountSteps] in *. lia. }
  clearbody a' cap.
  revert a' Ha'. induction n as [|n IH]; intros a' (Hu' & Hb' & Hamt'); cbn [ticks].
  - exact Hb'.
  - apply IH. split; [|split].
    + unfold unit_step in *. now rewrite move_step.
    + apply move_backlash_cap; assumption.
    + now rewrite move_backlashAmountSteps.
Qed.

Lemma lowered_backlash_is_not_exceeded_witness :
  let a := ticks 402 (setTargetCoordinate 0.2 (demo_axis 50)) in
  let a' := setBacklash 0.01 a in
  backlashSteps a = 50
  /\ backlashAmountSteps a' = 10
  /\ backlashSteps a' = backlashSteps a
  /\ 0 <= backlashSteps (ticks 25 a') <= Z.max 50 10.
Proof.
  intros a a'.
  assert (Hu : unit_step a) by (vm_compute; reflexivity).
  assert (E50 : backlashSteps a = 50) by (vm_compute; reflexivity).
  assert (E10 : backlashAmountSteps a' = 10) by (vm_compute; reflexivity).
  assert (Hb : 0 <= backlashSteps a < 2 ^ 31) by (rewrite E50; lia).
  destruct (lowered_backlash_is_not_exceeded 0.01 a 25 Hu Hb) as [Hk Hc].
  fold a' in Hk, Hc. rewrite E10, E50 in Hc.
  split; [exact E50|]. split; [exact E10|]. split; [exact Hk | exact Hc].
Defined.

(** * Further properties of the frequency and of the mount *)

Lemma out_of_range_nan (d : float) : Prim2SF d = S754_nan -> out_of_range d = true.
Proof.
  intros H. unfold out_of_range, is_finite, is_nan, is_infinity, fabs.
  rewrite FloatAxioms.ltb_spec, !FloatAxioms.eqb_spec, FloatAxioms.abs_spec, H.
  reflexivity.
Qed.

Lemma out_of_range_infinity (d : float) (s : bool) :
  Prim2SF d = S754_infinity s -> out_of_range d = true.
Proof.
  intros H. unfold out_of_range, is_finite, is_nan, is_infinity, fabs.
  rewrite FloatAxioms.ltb_spec, !FloatAxioms.eqb_spec, FloatAxioms.abs_spec, H.
  destruct s; reflexivity.
Qed.

(** A zero frequency on an axis of positive [spm] gives a half-period that
    is infinite, or not a number when [spm] is infinite. *)
Lemma half_period_zero (a : Axis) :
  (0 <? spm a)%float = true -> out_of_range (half_period 0 a) = true.
Proof.
  intros Hs. unfold half_period.
  rewrite FloatAxioms.ltb_spec in Hs. change (Prim2SF 0) with (S754_zero false) in Hs.
  set (p := (0 * spm a)%float).
  assert (Hp : Prim2SF p = S754_zero false \/ Prim2SF p = S754_nan).
  { unfold p. rewrite FloatAxioms.mul_spec. change (Prim2SF 0) with (S754_zero false).
    destruct (Prim2SF (spm a)) as [s | s | | s m e]; try discriminate;
      destruct s; try discriminate; cbn; auto. }
  set (d := (1000000.0 / p)%float).
  assert (Hd : Prim2SF d = S754_infinity false \/ Prim2SF d = S754_nan).
  { unfold d. rewrite FloatAxioms.div_spec.
    destruct Hp as [-> | ->]; [left | right]; vm_compute; reflexivity. }
  assert (Hlt : (d <? minPeriodMicros a)%float = false).
  { rewrite FloatAxioms.ltb_spec.
    destruct Hd as [-> | ->]; [|reflexivity].
    destruct (Prim2SF (minPeriodMicros a)) as [s | s | | s m e];
      try reflexivity; destruct s; reflexivity. }
  rewrite Hlt.
  assert (Hh : Prim2SF (d / 2.0)%float = S754_infinity false
               \/ Prim2SF (d / 2.0)%float = S754_nan).
  { rewrite FloatAxioms.div_spec.
    destruct Hd as [-> | ->]; [left | right]; vm_compute; reflexivity. }
  destruct Hh as [Hh | Hh];
    [apply (out_of_range_infinity _ false), Hh | apply out_of_range_nan, Hh].
Qed.

(** What [setFrequency] leaves alone: everything but [lastPeriod] and the
    period of the task. *)
Lemma setFrequency_frame {K : Constants} (c : Z) (f : float) (a : Axis) :
  let a' := setFrequency c f a in
  motorSteps a' = motorSteps a /\ indexSteps a' = indexSteps a
  /\ backlashSteps a' = backlashSteps a /\ targetSteps a' = targetSteps a
  /\ tracking a' = tracking a /\ enabled a' = enabled a
  /\ enablePinWired a' = enablePinWired a /\ spm a' = spm a.
Proof.
  cbn zeta. rewrite setFrequency_cases. cbn zeta.
  destruct (out_of_range _); destruct a; cbn; repeat split.
Qed.

Section FrequencyZero.
Context {K : Constants}.

(** X9. A frequency of zero stops the axis: on an axis of positive [spm],
    [setFrequency(0)] programs the period 0, whatever the floor
    [minPeriodMicros] and the period before, and the axis reports the
    frequency 0; motor, backlash and target are not touched. *)
Theorem zero_frequency_stops (clockPeriod : Z) (a : Axis) :
  (0 <? spm a)%float = true ->
  let a' := setFrequency clockPeriod 0 a in
  taskPeriod a' = 0
  /\ lastPeriod a' = 0
  /\ getFrequencySteps a' = 0%float
  /\ motorSteps a' = motorSteps a
  /\ backlashSteps a' = backlashSteps a
  /\ targetSteps a' = targetSteps a.
Proof.
  intros Hs. cbn zeta.
  pose proof (setFrequency_cases clockPeriod 0 a) as E. cbn zeta in E.
  rewrite half_period_zero in E by exact Hs. rewrite E.
  unfold getFrequencySteps. destruct a; cbn. repeat split.
Qed.

End FrequencyZero.

Lemma zero_frequency_stops_witness :
  let K := onstep_constants in
  let a := setFrequency 15956313 0.001 (demo_axis 50) in
  let a' := setFrequency 15956313 0 a in
  taskPeriod a = 8000000
  /\ taskPeriod a' = 0
  /\ lastPeriod a' = 0
  /\ getFrequencySteps a' = 0%float.
Proof.
  intros K a a'.
  assert (Hs : (0 <? spm a)%float = true) by (vm_compute; reflexivity).
  destruct (@zero_frequency_stops onstep_constants 15956313 a Hs) as (H1 & H2 & H3 & _).
  split; [vm_compute; reflexivity|]. auto.
Defined.

Section TrackingSwitch.
Context {K : Constants} {X : Collaborators}.
Local Open Scope string_scope.
Local Open Scope Z_scope.

(** What [Mount::updateTrackingRates] does to the axes: each is passed
    through [setFrequency] once, and the rest of the mount is not read back. *)
Lemma updateTrackingRates_axes (w : World) :
  exists f1 f2,
    axis1 (updateTrackingRates w) = setFrequency (clock w) f1 (axis1 w)
    /\ axis2 (updateTrackingRates w) = setFrequency (clock w) f2 (axis2 w)
    /\ clock (updateTrackingRates w) = clock w
    /\ generalErrors (updateTrackingRates w) = generalErrors w
    /\ mountType (mount (updateTrackingRates w)) = mountType (mount w)
    /\ meridianFlip (mount (updateTrackingRates w)) = meridianFlip (mount w)
    /\ trackingState (mount (updateTrackingRates w)) = trackingState (mount w)
    /\ trackingRate (mount (updateTrackingRates w)) = trackingRate (mount w)
    /\ rateCompensation (mount (updateTrackingRates w)) = rateCompensation (mount w).
Proof.
  destruct w as [m a1 a2 c g]. unfold updateTrackingRates. cbn.
  eexists. eexists. split; [reflexivity|]. split; [reflexivity|].
  destruct m; cbn.
  destruct (MountType_eq_dec mountType0 ALTAZM);
    destruct trackingState0; destruct rateCompensation0; cbn; repeat split.
Qed.

(** With tracking off and no guide or delta rate, both axes are given the
    frequency [siderealToRad 0]. *)
Lemma updateTrackingRates_off (w : World) :
  trackingState (mount w) = TS_NONE ->
  guideRateAxis1 (mount w) = 0%float -> deltaRateAxis1 (mount w) = 0%float ->
  guideRateAxis2 (mount w) = 0%float -> deltaRateAxis2 (mount w) = 0%float ->
  axis1 (updateTrackingRates w) = setFrequency (clock w) (siderealToRad 0) (axis1 w)
  /\ axis2 (updateTrackingRates w) = setFrequency (clock w) (siderealToRad 0) (axis2 w).
Proof.
  destruct w as [m a1 a2 c g]. destruct m. cbn. intros -> -> -> -> ->.
  unfold updateTrackingRates; cbn.
  destruct (MountType_eq_dec mountType0 ALTAZM); destruct rateCompensation0; cbn;
    split; reflexivity.
Qed.

(** X10. [:Td#] on a mount that neither slews nor guides and has no guide
    or delta rate left stops both axes: the command is accepted, tracking
    is off and the step task of either axis gets the period 0.  The unit
    conversion [siderealToRad] is asked to map 0 to 0 and both axes to
    have a positive [spm]. *)
Theorem tracking_off_stops_axes (io : CommandIO) (w : World) :
  commandError io = CE_NONE ->
  gotoState (mount w) = GS_NONE ->
  guideState (mount w) = GU_NONE ->
  guideRateAxis1 (mount w) = 0%float -> deltaRateAxis1 (mount w) = 0%float ->
  guideRateAxis2 (mount w) = 0%float -> deltaRateAxis2 (mount w) = 0%float ->
  siderealToRad 0 = 0%float ->
  (0 <? spm (axis1 w))%float = true ->
  (0 <? spm (axis2 w))%float = true ->
  exists w',
    command "Td" "" io w = Some (io, w')
    /\ trackingState (mount w') = TS_NONE
    /\ taskPeriod (axis1 w') = 0 /\ taskPeriod (axis2 w') = 0
    /\ getFrequencySteps (axis1 w') = 0%float
    /\ getFrequencySteps (axis2 w') = 0%float.
Proof.
  intros Hio Hg Hu G1 D1 G2 D2 Hz S1 S2.
  rewrite dispatch_T by (cbn; auto 10).
  unfold command_T. cbn. rewrite Hg, Hu. cbn. rewrite Hio. cbn.
  eexists. split; [reflexivity|].
  set (w0 := upd_trackingState TS_NONE w).
  destruct (updateTrackingRates_axes w0) as (f1 & f2 & _ & _ & _ & _ & _ & _ & Ht & _).
  destruct (updateTrackingRates_off w0) as [E1 E2];
    try (destruct w as [m a1 a2 c g]; destruct m; cbn in *; assumption || reflexivity).
  rewrite Ht, E1, E2, Hz.
  assert (A1 : axis1 w0 = axis1 w) by (destruct w; reflexivity).
  assert (A2 : axis2 w0 = axis2 w) by (destruct w; reflexivity).
  rewrite A1, A2.
  pose proof (setFrequency_cases (clock w0) 0 (axis1 w)) as C1.
  pose proof (setFrequency_cases (clock w0) 0 (axis2 w)) as C2.
  cbn zeta in C1, C2.
  rewrite half_period_zero in C1, C2 by assumption.
  rewrite C1, C2. unfold getFrequencySteps.
  destruct (axis1 w), (axis2 w); cbn.
  split; [destruct w as [m ? ? ? ?]; destruct m; reflexivity|]. repeat split.
Qed.

(** X11. The two tracking switches and the state of the mount.  [:Td#] is
    refused with the error "mount in motion" exactly when a goto or a
    guide is under way, and then changes nothing; [:Te#] is refused with
    the error "parked" exactly when the mount is parked, and then changes
    nothing.  An accepted [:Te#] selects sidereal tracking, clears all the
    general errors and enables each axis that has an enable pin. *)
Theorem tracking_switch_conflicts (io : CommandIO) (w : World) :
  commandError io = CE_NONE ->
  (gotoState (mount w) <> GS_NONE \/ guideState (mount w) <> GU_NONE ->
     command "Td" "" io w = Some (set_commandError CE_MOUNT_IN_MOTION io, w))
  /\ (gotoState (mount w) = GS_NONE -> guideState (mount w) = GU_NONE ->
        exists w', command "Td" "" io w = Some (io, w')
                   /\ trackingState (mount w') = TS_NONE)
  /\ (parkState (mount w) = PS_PARKED ->
        command "Te" "" io w = Some (set_commandError CE_PARKED io, w))
  /\ (parkState (mount w) <> PS_PARKED ->
        exists w', command "Te" "" io w = Some (io, w')
                   /\ trackingState (mount w') = TS_SIDEREAL
                   /\ generalErrors w' = no_errors
                   /\ enabled (axis1 w') = (enablePinWired (axis1 w) || enabled (axis1 w))%bool
                   /\ enabled (axis2 w') = (enablePinWired (axis2 w) || enabled (axis2 w))%bool).
Proof.
  intros Hio.
  rewrite !dispatch_T by (cbn; auto 10).
  unfold command_T. cbn.
  repeat split.
  - intros H.
    destruct (GotoState_eq_dec (gotoState (mount w)) GS_NONE);
      [destruct (GuideState_eq_dec (guideState (mount w)) GU_NONE)|];
      try (destruct H; contradiction); reflexivity.
  - intros -> ->. cbn. rewrite Hio. cbn. eexists. split; [reflexivity|].
    destruct (updateTrackingRates_axes (upd_trackingState TS_NONE w))
      as (f1 & f2 & _ & _ & _ & _ & _ & _ & Ht & _).
    rewrite Ht. destruct w as [m ? ? ? ?]; destruct m; reflexivity.
  - intros ->. reflexivity.
  - intros H.
    destruct (ParkState_eq_dec (parkState (mount w)) PS_PARKED); [contradiction|].
    rewrite Hio. cbn. eexists. split; [reflexivity|].
    set (w0 := both_enabled (upd_trackingState TS_SIDEREAL (resetGeneralErrors w))).
    destruct (updateTrackingRates_axes w0)
      as (f1 & f2 & E1 & E2 & _ & Hg & _ & _ & Ht & _).
    rewrite Ht, Hg, E1, E2.
    destruct (setFrequency_frame (clock w0) f1 (axis1 w0)) as (_ & _ & _ & _ & _ & -> & _).
    destruct (setFrequency_frame (clock w0) f2 (axis2 w0)) as (_ & _ & _ & _ & _ & -> & _).
    unfold w0, both_enabled, enable.
    destruct w as [m a1 a2 c g]; destruct m; cbn.
    destruct a1, a2; cbn.
    repeat split; repeat break_if; reflexivity.
Qed.

End TrackingSwitch.

Lemma tracking_off_stops_axes_witness :
  let K := onstep_constants in
  let X := demo_collaborators in
  let w := demo_world GEM TS_SIDEREAL in
  exists w',
    command "Td" "" fresh_io w = Some (fresh_io, w')
    /\ trackingState (mount w') = TS_NONE
    /\ taskPeriod (axis1 w') = 0 /\ taskPeriod (axis2 w') = 0
    /\ getFrequencySteps (axis1 w') = 0%float
    /\ getFrequencySteps (axis2 w') = 0%float.
Proof.
  intros K X w.
  apply (@tracking_off_stops_axes K X fresh_io w); vm_compute; reflexivity.
Defined.

Lemma tracking_switch_conflicts_witness :
  let K := onstep_constants in
  let X := demo_collaborators in
  let w := demo_world GEM TS_NONE in
  exists w',
    command "Te" "" fresh_io w = Some (fresh_io, w')
    /\ trackingState (mount w') = TS_SIDEREAL
    /\ generalErrors w' = no_errors
    /\ enabled (axis1 w') = (enablePinWired (axis1 w) || enabled (axis1 w))%bool
    /\ enabled (axis2 w') = (enablePinWired (axis2 w) || enabled (axis2 w))%bool.
Proof.
  intros K X w.
  destruct (@tracking_switch_conflicts K X fresh_io w eq_refl) as (_ & _ & _ & H).
  apply H. vm_compute. discriminate.
Defined.

Section Reports.
Context {K : Constants} {X : Collaborators}.
Local Open Scope string_scope.
Local Open Scope Z_scope.

Lemma updatePosition_frame (w : World) :
  axis1 (updatePosition w) = axis1 w /\ axis2 (updatePosition w) = axis2 w
  /\ clock (updatePosition w) = clock w
  /\ generalErrors (updatePosition w) = generalErrors w
  /\ mount (updatePosition w)
     = set_current (current (mount (updatePosition w))) (mount w).
Proof. destruct w as [m a1 a2 c g]; destruct m; cbn. repeat split. Qed.

Lemma identity_frame (w : World) :
  axis1 w = axis1 w /\ axis2 w = axis2 w /\ clock w = clock w
  /\ generalErrors w = generalErrors w
  /\ mount w = set_current (current (mount w)) (mount w).
Proof. destruct w as [m a1 a2 c g]; destruct m; cbn. repeat split. Qed.

(** X12. The reports do not act on the telescope.  A command whose first
    letter is [G] and whose second letter is not [o], whatever its
    parameter and whether it is recognised or not, leaves both axes, the
    clock, the general errors and the whole mount as they are, but for the
    cached position [current], which some reports refresh. *)
Theorem reports_change_only_current (c1 : ascii) (p : string)
    (io io' : CommandIO) (w w' : World) :
  Ascii.eqb c1 "o" = false ->
  command (String "G" (String c1 "")) p io w = Some (io', w') ->
  axis1 w' = axis1 w /\ axis2 w' = axis2 w /\ clock w' = clock w
  /\ generalErrors w' = generalErrors w
  /\ mount w' = set_current (current (mount w')) (mount w).
Proof.
  intros Ho. unfold command, cmd, cmdH, cmdP, report.
  cbn [chr String.get]. rewrite Ho.
  change (Ascii.eqb "G" "C") with false. change (Ascii.eqb "G" "M") with false.
  change (Ascii.eqb "G" "S") with false. change (Ascii.eqb "G" "T") with false.
  change (Ascii.eqb "G" "V") with false. change (Ascii.eqb "G" "$") with false.
  change (Ascii.eqb "G" "%") with false. change (Ascii.eqb "G" "G") with true.
  cbn [andb orb].
  repeat (break_if;
          try (intros [= <- <-]; (apply updatePosition_frame || apply identity_frame)));
    try discriminate.
Qed.

(** X13. Every command whose second letter is [o] is taken for the
    overhead-limit setter, [:Go#] without parameter excepted: the test
    [command[1] == 'o'] does not look at the first letter.  Such a
    command can change nothing but the overhead limit, so no command
    spelt [:To#] selects full compensation. *)
Theorem second_letter_o_sets_overhead_limit (c0 : ascii) (p : string)
    (io : CommandIO) (w : World) :
  (Ascii.eqb c0 "G" && Ascii.eqb (chr 0 p) zero)%bool = false ->
  command (String c0 "o") p io w = Some (command_So p io w)
  /\ axis1 (snd (command_So p io w)) = axis1 w
  /\ axis2 (snd (command_So p io w)) = axis2 w
  /\ mount (snd (command_So p io w))
     = set_limits
         (set_maxAltitude (maxAltitude (limits (mount (snd (command_So p io w)))))
            (limits (mount w)))
         (mount w).
Proof.
  intros H. split.
  - unfold command, cmd, cmdH, cmdP.
    cbn [chr String.get].
    repeat match goal with
           | |- context [Ascii.eqb "o" ?c] =>
               lazymatch c with
               | "o"%char => fail
               | _ => change (Ascii.eqb "o" c) with false
               end
           end.
    change (Ascii.eqb "o" "o") with true.
    rewrite !andb_false_r, !andb_true_r. cbn [andb orb].
    rewrite H. reflexivity.
  - unfold command_So, upd_limits, not_altazm.
    destruct w as [m a1 a2 c g]; destruct m as [? ? ? ? ? ? ? ? ? ? ? ? ? ? ? ? ? l];
      destruct l; cbn.
    destruct (atoi2 p); cbn; repeat break_if; cbn; repeat split.
Qed.

End Reports.

Lemma reports_change_only_current_witness :
  let K := onstep_constants in
  let X := demo_collaborators in
  let w := demo_world GEM TS_SIDEREAL in
  let r := command "GR" "" fresh_io w in
  axis1 (snd (match r with Some x => x | None => (fresh_io, w) end)) = axis1 w
  /\ axis2 (snd (match r with Some x => x | None => (fresh_io, w) end)) = axis2 w.
Proof.
  intros K X w r.
  destruct (@reports_change_only_current K X "R" "" fresh_io
              (fst (match r with Some x => x | None => (fresh_io, w) end))
              w (snd (match r with Some x => x | None => (fresh_io, w) end))
              eq_refl eq_refl) as (H1 & H2 & _).
  split; assumption.
Defined.

Lemma second_letter_o_sets_overhead_limit_witness :
  let K := onstep_constants in
  let X := demo_collaborators in
  let w := demo_world GEM TS_SIDEREAL in
  command "Go" "75" fresh_io w = Some (command_So "75" fresh_io w)
  /\ command "To" "" fresh_io w = Some (command_So "" fresh_io w)
  /\ maxAltitude (limits (mount (snd (command_So "75" fresh_io w)))) = degToRad 75.
Proof.
  intros K X w.
  destruct (@second_letter_o_sets_overhead_limit K X "G" "75" fresh_io w eq_refl)
    as (H1 & _).
  destruct (@second_letter_o_sets_overhead_limit K X "T" "" fresh_io w eq_refl)
    as (H2 & _).
  split; [exact H1|]. split; [exact H2|]. vm_compute. reflexivity.
Defined.

Section Atomicity.
Context {K : Constants} {X : Collaborators}.
Local Open Scope string_scope.
Local Open Scope Z_scope.

Lemma handlers_reject_atomically (p : string) (io io' : CommandIO) (w w' : World) :
  commandError io = CE_NONE ->
  commandError io' <> CE_NONE ->
  (command_Sh p io w = (io', w') -> w' = w)
  /\ (command_So p io w = (io', w') -> w' = w)
  /\ (command_ST p io w = (io', w') -> w' = w)
  /\ (command_setB p io w = (io', w') -> w' = w)
  /\ (command_getB p io w = (io', w') -> w' = w).
Proof.
  intros Hio Hne.
  unfold command_Sh, command_So, command_ST, command_setB, command_getB.
  repeat split;
    repeat break_if;
    try (destruct (atoi2 _)); try (destruct (strtod _)); repeat break_if;
    intros [= <- <-]; cbn in *; try reflexivity; congruence.
Qed.

(** X14. Rejection is atomic everywhere else.  A command of the mount
    that is answered with an error has left the axes, the clock and the
    mount exactly as they were, unless it is one of the commands listed in
    [writes_before_rejecting]: a sync or goto, a target setter, or
    [:Tr#], [:Tn#]. *)
Theorem rejection_is_atomic_elsewhere (c p : string) (io io' : CommandIO)
    (w w' : World) :
  commandError io = CE_NONE ->
  command c p io w = Some (io', w') ->
  commandError io' <> CE_NONE ->
  w' = w \/ writes_before_rejecting c p = true.
Proof.
  intros Hio Hc Hne.
  destruct (writes_before_rejecting c p) eqn:W; [right; reflexivity|left].
  unfold writes_before_rejecting in W.
  repeat (apply orb_false_elim in W; destruct W as [W ?]).
  destruct (handlers_reject_atomically p io io' w w' Hio Hne)
    as (Ah & Ao & At & As & Ag).
  revert Hc. unfold command, report.
  repeat match goal with
         | H : ?b = false |- context [?b] => rewrite H
         end.
  cbn [orb].
  repeat (break_if;
          try (intros [= <- <-]; cbn in Hne; congruence);
          try (intros [= E]; auto; fail)).
  intros [= E].
  match goal with
  | H : (Ascii.eqb (chr 0 c) "T" && _)%bool = true |- _ =>
      apply andb_prop in H; destruct H as [HT _]
  end.
  match goal with
  | H : (Ascii.eqb (chr 0 c) "T" && in_chars _ _)%bool = false |- _ =>
      rewrite HT in H; cbn [andb in_chars existsb orb] in H;
        rewrite orb_false_r in H; apply orb_false_elim in H; destruct H as [Hr Hn]
  end.
  apply (tracking_commands_reject_atomically (chr 1 c) io io' w w' Hio); auto.
  right. cbn [In]. intros [Ho | [Ho | [Ho | []]]]; rewrite <- Ho in *;
    cbn in *; congruence.
Qed.

End Atomicity.

Lemma rejection_is_atomic_elsewhere_witness :
  let K := onstep_constants in
  let X := demo_collaborators in
  let w := demo_world GEM TS_SIDEREAL in
  commandError (fst (command_Sh "45" fresh_io w)) = CE_PARAM_RANGE
  /\ (snd (command_Sh "45" fresh_io w) = w \/ writes_before_rejecting "Sh" "45" = true).
Proof.
  intros K X w. split; [vm_compute; reflexivity|].
  apply (@rejection_is_atomic_elsewhere K X "Sh" "45" fresh_io
           (fst (command_Sh "45" fresh_io w)) w (snd (command_Sh "45" fresh_io w))).
  - reflexivity.
  - vm_compute. reflexivity.
  - vm_compute. discriminate.
Defined.

(** ** The calibration of the delay loop *)

(** X15. Whatever the two readings of [micros()], [HAL_Initialize]
    leaves [_nanosPerPass] between 1 and 2000, so [delayNanoseconds] never
    divides by zero and never makes more passes than nanoseconds were
    asked for; and when the elapsed time is at most 2,147,483
    microseconds the value is the elapsed nanoseconds over 63335, kept
    within these bounds. *)
Theorem nanosPerPass_is_bounded (startTime endTime : Z) :
  1 <= HAL_Initialize startTime endTime <= 2000
  /\ (forall n, 0 <= n ->
        0 <= delay_passes (HAL_Initialize startTime endTime) n <= n)
  /\ (0 <= endTime - startTime <= 2147483 ->
        HAL_Initialize startTime endTime = calibrated (endTime - startTime)).
Proof.
  assert (B : 1 <= HAL_Initialize startTime endTime <= 2000).
  { unfold HAL_Initialize. cbn zeta.
    repeat match goal with
           | |- context [?a <? ?b] => destruct (Z.ltb_spec a b)
           | |- context [?a >? ?b] => rewrite (Z.gtb_ltb a b); destruct (Z.ltb_spec b a)
           end; lia. }
  split; [exact B|]. split.
  - intros n Hn. unfold delay_passes. split.
    + apply Z.div_pos; lia.
    + apply Z.div_le_upper_bound; nia.
  - intros He. unfold HAL_Initialize, calibrated. cbn zeta.
    assert (E1 : wrap_ulong (endTime - startTime) = endTime - startTime).
    { unfold wrap_ulong. apply Z.mod_small. lia. }
    rewrite E1.
    rewrite (wrap_long_id (endTime - startTime)) by (unfold long_range; lia).
    rewrite (wrap_long_id ((endTime - startTime) * 1000)) by (unfold long_range; lia).
    rewrite Z.quot_div_nonneg by lia.
    pose proof (Z.div_pos ((endTime - startTime) * 1000) 63335 ltac:(lia) ltac:(lia)).
    assert ((endTime - startTime) * 1000 / 63335 <= 2147483000).
    { apply Z.div_le_upper_bound; lia. }
    assert (E2 : wrap_ulong ((endTime - startTime) * 1000 / 63335)
                 = (endTime - startTime) * 1000 / 63335).
    { unfold wrap_ulong. apply Z.mod_small. lia. }
    rewrite E2.
    repeat match goal with
           | |- context [?a <? ?b] => destruct (Z.ltb_spec a b)
           | |- context [?a >? ?b] => rewrite (Z.gtb_ltb a b); destruct (Z.ltb_spec b a)
           end; lia.
Qed.

(** ** Start-up *)

Section StartUp.
Context {K : Constants}.

(** An axis after [init], [setInstrumentCoordinate] and [enable(true)]. *)
Lemma started_axis (s : AxisSettings.t) (v : float) (a : Axis) :
  let b := enable true (setInstrumentCoordinate v (Axis_init s a)) in
  getInstrumentCoordinateSteps b
    = double_to_long (v * AxisSettings.stepsPerMeasure s)%float
  /\ enabled b = (enablePinWired a || enabled a)%bool
  /\ motorSteps b = motorSteps a
  /\ backlashSteps b = backlashSteps a
  /\ targetSteps b = targetSteps a
  /\ tracking b = tracking a.
Proof.
  cbn zeta.
  unfold getInstrumentCoordinateSteps, setInstrumentCoordinate, Axis_init, enable.
  destruct a, s; cbn.
  repeat (break_if; cbn); rewrite ?ladd_lsub_cancel; repeat split;
    unfold double_to_long; apply wrap_long_idem.
Qed.

(** [setFrequencyMax] and [setTracking] leave the position alone. *)
Lemma tracked_axis (f : float) (b : Axis) :
  let b' := setTracking true (setFrequencyMax f b) in
  getInstrumentCoordinateSteps b' = getInstrumentCoordinateSteps b
  /\ motorSteps b' = motorSteps b
  /\ backlashSteps b' = backlashSteps b /\ targetSteps b' = targetSteps b
  /\ enabled b' = enabled b /\ tracking b' = true.
Proof.
  cbn zeta. unfold getInstrumentCoordinateSteps, setTracking, setFrequencyMax.
  destruct b; cbn. break_if; cbn; repeat split.
Qed.

(** [Mount::updateTrackingRates] changes the periods of the axes and the
    two axis rates of the mount, nothing else. *)
Lemma updateTrackingRates_keeps (w : World) :
  let w' := updateTrackingRates w in
  mountType (mount w') = mountType (mount w)
  /\ trackingState (mount w') = trackingState (mount w)
  /\ trackingRate (mount w') = trackingRate (mount w)
  /\ meridianFlip (mount w') = meridianFlip (mount w)
  /\ getInstrumentCoordinateSteps (axis1 w') = getInstrumentCoordinateSteps (axis1 w)
  /\ getInstrumentCoordinateSteps (axis2 w') = getInstrumentCoordinateSteps (axis2 w)
  /\ enabled (axis1 w') = enabled (axis1 w)
  /\ enabled (axis2 w') = enabled (axis2 w)
  /\ (motorSteps (axis1 w'), backlashSteps (axis1 w'), targetSteps (axis1 w'))
     = (motorSteps (axis1 w), backlashSteps (axis1 w), targetSteps (axis1 w))
  /\ (motorSteps (axis2 w'), backlashSteps (axis2 w'), targetSteps (axis2 w'))
     = (motorSteps (axis2 w), backlashSteps (axis2 w), targetSteps (axis2 w))
  /\ tracking (axis1 w') = tracking (axis1 w)
  /\ tracking (axis2 w') = tracking (axis2 w).
Proof.
cbn zeta.
destruct (updateTrackingRates_axes w)
    as (f1 & f2 & E1 & E2 & _ & _ & Hty & Hmf & Hts & Htr & _).
rewrite Hty, Hts, Htr, Hmf, E1, E2.
unfold getInstrumentCoordinateSteps.
destruct (setFrequency_frame (clock w) f1 (axis1 w)) as (-> & -> & -> & -> & -> & -> & _).
destruct (setFrequency_frame (clock w) f2 (axis2 w)) as (-> & -> & -> & -> & -> & -> & _).
repeat (split; [reflexivity|]); reflexivity.
Qed.


(** [Mount::init] ends with [updateTrackingRates] on the state prepared
    by the calls before it. *)
Lemma Mount_init_eq (mountType0 : MountType) (s1 s2 : AxisSettings.t)
    (m : Mount) (a1 a2 : Axis) (c : Z) (g : GeneralErrors) :
  Mount_init mountType0 s1 s2 (Build_World m a1 a2 c g)
  = updateTrackingRates
      (Build_World
         (set_trackingRate (hzToSidereal SIDEREAL_RATE_HZ)
            (set_trackingState TS_SIDEREAL
               (set_radsPerCentisecond (degToRad (15.0 / 3600.0) / 100.0)%float
                  (if MountType_eq_dec mountType0 GEM
                   then set_meridianFlip MF_ALWAYS (set_mountType mountType0 m)
                   else set_mountType mountType0 m))))
         (setTracking true
            (setFrequencyMax (degToRad 4.0)
               (enable true (setInstrumentCoordinate (degToRad 90.0) (Axis_init s1 a1)))))
         (enable true (setInstrumentCoordinate (degToRad 90.0) (Axis_init s2 a2)))
         c g).
Proof.
unfold Mount_init. destruct (MountType_eq_dec mountType0 GEM); reflexivity.
Qed.


(** X16. The state [Mount::init] hands over.  The mount has the type
    asked for and tracks at the sidereal rate; a German equatorial mount
    always flips at the meridian, another type keeps the setting it had.
    Both axes read 90 degrees, converted to steps with the
    [stepsPerMeasure] of their settings, and are enabled when they have
    an enable pin.  The start-up relabels the position only: motor
    position, backlash and target of either axis are those from before,
    the primary axis follows the tracking rate, the secondary axis keeps
    the tracking flag it had. *)
Theorem Mount_init_hands_over (mountType0 : MountType)
    (axis1Settings axis2Settings : AxisSettings.t) (w : World) :
  let w' := Mount_init mountType0 axis1Settings axis2Settings w in
  mountType (mount w') = mountType0
  /\ trackingState (mount w') = TS_SIDEREAL
  /\ trackingRate (mount w') = hzToSidereal SIDEREAL_RATE_HZ
  /\ meridianFlip (mount w')
     = (if MountType_eq_dec mountType0 GEM then MF_ALWAYS else meridianFlip (mount w))
  /\ getInstrumentCoordinateSteps (axis1 w')
     = double_to_long (degToRad 90 * AxisSettings.stepsPerMeasure axis1Settings)%float
  /\ getInstrumentCoordinateSteps (axis2 w')
     = double_to_long (degToRad 90 * AxisSettings.stepsPerMeasure axis2Settings)%float
  /\ enabled (axis1 w') = (enablePinWired (axis1 w) || enabled (axis1 w))%bool
  /\ enabled (axis2 w') = (enablePinWired (axis2 w) || enabled (axis2 w))%bool
  /\ (motorSteps (axis1 w'), backlashSteps (axis1 w'), targetSteps (axis1 w'))
     = (motorSteps (axis1 w), backlashSteps (axis1 w), targetSteps (axis1 w))
  /\ (motorSteps (axis2 w'), backlashSteps (axis2 w'), targetSteps (axis2 w'))
     = (motorSteps (axis2 w), backlashSteps (axis2 w), targetSteps (axis2 w))
  /\ tracking (axis1 w') = true
  /\ tracking (axis2 w') = tracking (axis2 w).
Proof.
  cbn zeta. destruct w as [m a1 a2 c g]. rewrite Mount_init_eq.
  match goal with
  | |- context [updateTrackingRates ?x] =>
      destruct (updateTrackingRates_keeps x)
        as (-> & -> & -> & -> & -> & -> & -> & -> & -> & -> & -> & ->)
  end.
  cbn [axis1 axis2 mount].
  destruct (started_axis axis1Settings (degToRad 90) a1) as (I1 & N1 & M1 & B1 & G1 & _).
  destruct (started_axis axis2Settings (degToRad 90) a2) as (I2 & N2 & M2 & B2 & G2 & R2).
  destruct (tracked_axis (degToRad 4)
              (enable true (setInstrumentCoordinate (degToRad 90)
                              (Axis_init axis1Settings a1))))
    as (T1 & T2 & T3 & T4 & T5 & T6).
  rewrite T1, T2, T3, T4, T5, T6.
  rewrite I1, I2, N1, N2, M1, M2, B1, B2, G1, G2, R2.
  destruct m. destruct (MountType_eq_dec mountType0 GEM);
    repeat (split; [reflexivity|]); reflexivity.
Qed.

End StartUp.

Section RateSetter.
Context {K : Constants} {X : Collaborators}.
Local Open Scope string_scope.
Local Open Scope Z_scope.

Lemma both_enabled_frame (w : World) :
  mount (both_enabled w) = mount w
  /\ clock (both_enabled w) = clock w
  /\ enabled (axis1 (both_enabled w))
     = (enablePinWired (axis1 w) || enabled (axis1 w))%bool
  /\ enabled (axis2 (both_enabled w))
     = (enablePinWired (axis2 w) || enabled (axis2 w))%bool.
Proof.
  unfold both_enabled, enable. destruct w as [m a1 a2 c g]; destruct a1, a2; cbn.
  repeat split; repeat break_if; reflexivity.
Qed.

(** X17. Parking stops [:Te#], not [:ST]: on a parked mount with
    tracking off the switch [:Te#] is refused with the error "parked" and
    changes nothing, while the rate setter with a rate from 30 Hz to
    below 90 Hz is accepted, turns sidereal tracking on at that rate and
    enables each axis that has an enable pin. *)
Theorem rate_setter_starts_parked_mount (p : string) (f : float)
    (io : CommandIO) (w : World) :
  commandError io = CE_NONE ->
  parkState (mount w) = PS_PARKED ->
  trackingState (mount w) = TS_NONE ->
  strtod p = Some f ->
  ((30 <=? f) && (f <? 90))%float%bool = true ->
  (fabs f <? 0.1)%float = false ->
  command "Te" "" io w = Some (set_commandError CE_PARKED io, w)
  /\ exists w',
       command "ST" p io w = Some (io, w')
       /\ parkState (mount w') = PS_PARKED
       /\ trackingState (mount w') = TS_SIDEREAL
       /\ trackingRate (mount w') = hzToSidereal f
       /\ enabled (axis1 w') = (enablePinWired (axis1 w) || enabled (axis1 w))%bool
       /\ enabled (axis2 w') = (enablePinWired (axis2 w) || enabled (axis2 w))%bool.
Proof.
  intros Hio Hp Ht Hs Hr Hz. split.
  - rewrite dispatch_T by (cbn; auto 10).
    unfold command_T. cbn. rewrite Hp. reflexivity.
  - change (command "ST" p io w) with (Some (command_ST p io w)).
    unfold command_ST. rewrite Hs, Hr, Hz. cbn [orb]. rewrite Ht.
    cbn [TrackingState_eq_dec TrackingState_rec TrackingState_rect].
    eexists. split; [reflexivity|].
    match goal with
    | |- context [updateTrackingRates ?x] =>
        destruct (updateTrackingRates_axes x)
          as (f1 & f2 & E1 & E2 & _ & _ & _ & _ & Hts & Htr & _);
          assert (Hpk : parkState (mount (updateTrackingRates x)) = parkState (mount x))
    end.
    { unfold updateTrackingRates.
      destruct w as [m a1 a2 c g]; destruct m; cbn.
      repeat break_if; reflexivity. }
    rewrite Hpk, Hts, Htr, E1, E2.
    match goal with
    | |- context [setFrequency ?c ?f (axis1 ?x)] =>
        destruct (setFrequency_frame c f (axis1 x)) as (_ & _ & _ & _ & _ & -> & _)
    end.
    match goal with
    | |- context [setFrequency ?c ?f (axis2 ?x)] =>
        destruct (setFrequency_frame c f (axis2 x)) as (_ & _ & _ & _ & _ & -> & _)
    end.
    destruct (both_enabled_frame (upd_trackingState TS_SIDEREAL w)) as (Bm & _ & B1 & B2).
    destruct w as [m a1 a2 c g]; destruct m; cbn in *. subst.
    repeat split; assumption.
Qed.

End RateSetter.

Lemma rate_setter_starts_parked_mount_witness :
  let K := onstep_constants in
  let X := demo_collaborators in
  let w := parked_world in
  command "Te" "" fresh_io w = Some (set_commandError CE_PARKED fresh_io, w)
  /\ exists w',
       command "ST" "60" fresh_io w = Some (fresh_io, w')
       /\ parkState (mount w') = PS_PARKED
       /\ trackingState (mount w') = TS_SIDEREAL
       /\ trackingRate (mount w') = hzToSidereal 60
       /\ enabled (axis1 w') = (enablePinWired (axis1 w) || enabled (axis1 w))%bool
       /\ enabled (axis2 w') = (enablePinWired (axis2 w) || enabled (axis2 w))%bool.
Proof.
  intros K X w.
  apply (@rate_setter_starts_parked_mount K X "60" 60 fresh_io w);
    vm_compute; reflexivity.
Defined.

Section Repeatable.
Context {K : Constants} {X : Collaborators}.
Local Open Scope string_scope.
Local Open Scope Z_scope.

Lemma updatePosition_idem (w : World) :
  updatePosition (updatePosition w) = updatePosition w.
Proof. destruct w as [m a1 a2 c g]; destruct m; reflexivity. Qed.

(** X18. A report can be asked for again: when a command whose first
    letter is [G] and whose second letter is not [o] has been answered,
    the same command on the state it left gets the same answer and leaves
    the same state. *)
Theorem reports_are_repeatable (c1 : ascii) (p : string)
    (io io' : CommandIO) (w w' : World) :
  Ascii.eqb c1 "o" = false ->
  command (String "G" (String c1 "")) p io w = Some (io', w') ->
  command (String "G" (String c1 "")) p io w' = Some (io', w').
Proof.
  intros Ho. unfold command, cmd, cmdH, cmdP, report.
  cbn [chr String.get]. rewrite Ho.
  change (Ascii.eqb "G" "C") with false. change (Ascii.eqb "G" "M") with false.
  change (Ascii.eqb "G" "S") with false. change (Ascii.eqb "G" "T") with false.
  change (Ascii.eqb "G" "V") with false. change (Ascii.eqb "G" "$") with false.
  change (Ascii.eqb "G" "%") with false. change (Ascii.eqb "G" "G") with true.
  cbn [andb orb].
  repeat match goal with
         | |- context [if ?c then _ else _] =>
             lazymatch c with
             | context [if _ then _ else _] => fail
             | context [w'] => fail
             | context [w] => fail
             | _ => destruct c eqn:?
             end
         end;
    try discriminate;
    intros [= <- <-]; rewrite ?updatePosition_idem; reflexivity.
Qed.

(** X19. The backlash report is blind to the backlash setter: whatever
    [:$B...#] was sent and however it was answered, every [:%B...#] is
    answered afterwards exactly as it would have been before. *)
Theorem backlash_report_is_blind_to_setter (p q : string)
    (io io' io2 : CommandIO) (w w' : World) :
  command "$B" p io w = Some (io', w') ->
  option_map fst (command "%B" q io2 w') = option_map fst (command "%B" q io2 w).
Proof.
  change (command "$B" p io w) with (Some (command_setB p io w)).
  change (command "%B" q io2 w') with (Some (command_getB q io2 w')).
  change (command "%B" q io2 w) with (Some (command_getB q io2 w)).
  intros [= E]. cbn [option_map]. f_equal.
  assert (B : backlash_reply (axis2 w') = backlash_reply (axis2 w)).
  { revert E. unfold command_setB.
    destruct (atoi2 _); repeat break_if; intros [= _ <-]; reflexivity. }
  unfold command_getB. rewrite B. repeat break_if; reflexivity.
Qed.

End Repeatable.

Lemma reports_are_repeatable_witness :
  let K := onstep_constants in
  let X := demo_collaborators in
  let w := demo_world GEM TS_SIDEREAL in
  let r := match command "GR" "" fresh_io w with
           | Some x => x
           | None => (fresh_io, w)
           end in
  command "GR" "" fresh_io (snd r) = Some (fst r, snd r).
Proof.
  intros K X w r.
  apply (@reports_are_repeatable K X "R" "" fresh_io (fst r) w (snd r) eq_refl).
  vm_compute. reflexivity.
Defined.

Lemma backlash_report_is_blind_to_setter_witness :
  let K := onstep_constants in
  let X := demo_collaborators in
  let w := demo_world GEM TS_SIDEREAL in
  let r := command_setB "D3600" fresh_io w in
  commandError (fst r) = CE_NONE
  /\ backlashAmountSteps (axis2 (snd r)) <> backlashAmountSteps (axis2 w)
  /\ option_map fst (command "%B" "D" fresh_io (snd r))
     = option_map fst (command "%B" "D" fresh_io w).
Proof.
  intros K X w r.
  split; [vm_compute; reflexivity|].
  split; [vm_compute; discriminate|].
  apply (@backlash_report_is_blind_to_setter K X "D3600" "D" fresh_io (fst r) fresh_io
           w (snd r)).
  vm_compute. reflexivity.
Defined.
